(** * The deadline / reminder engine of [src/helpers/update-tasks.ts]

    A shallow embedding of the task-update helper: every [async] function of
    the file becomes a computation in a small monad.  Running a computation
    yields how it ended (a rejected promise is a [Thrown] outcome), the
    number of clock readings taken so far, and the calls it made to the
    outside (logger, octokit, the supabase adapter), oldest first; the calls
    made before a rejection are kept.  The collaborators are oracles: the
    context says what each call answers. *)

From Stdlib Require Import ZArith List String Bool.
From stdpp Require Import gmap strings.
Import ListNotations.

Local Open Scope string_scope.
Local Open Scope list_scope.
Local Open Scope Z_scope.

(** ** Data *)

(** Instants and durations are milliseconds, as luxon's [DateTime.valueOf]
    and [Duration] have them.  The ISO strings of the database row are
    modelled by the instant [DateTime.fromISO] reads from them; strings that
    do not parse and digits below the millisecond are outside the model.
    The thresholds are whole minutes.  The arithmetic is luxon's on instants
    a [DateTime] can hold; past that range luxon's [plus] yields an invalid
    [DateTime], see [representable] below. *)
Definition instant := Z.

Module DateTime.
Definition minutes (m : Z) : Z := m * 60000.
Definition plus (d : instant) (ms : Z) : instant := d + ms.
Definition diff (a b : instant) : Z := a - b.
(** [a >= b] on two [DateTime]s compares their [valueOf]. *)
Definition geb (a b : instant) : bool := b <=? a.
End DateTime.

Record User := { login : string }.

(** What the code reads of an issue object: [assignees] may be missing and
    may hold [null] entries. *)
Record GithubIssue := { assignees : option (list (option User)) }.

(** A listed event that carries an actor.  GitHub also lists events whose
    actor is [null]; what the filter does on those is modelled apart, see
    [ListedEvent] below. *)
Record IssueEvent := { actor : User; created_at : instant }.

Record Payload := { payload_issue : option GithubIssue }.

(** [Database["public"]["Tables"]["repositories"]["Row"]]; [last_reminder] is
    [None] for [null]. *)
Record Row := {
  url : string;
  deadline : instant;
  last_check : instant;
  last_reminder : option instant
}.

(** The object handed to [supabase.repositories.upsert]; [lastReminder] is
    [None] when the property is not written. *)
Record UpsertArg := {
  upsert_url : string;
  upsert_deadline : instant;
  upsert_lastReminder : option instant;
  upsert_lastCheck : instant
}.

Record Config := {
  unassignUserThreshold : Z;
  sendRemindersThreshold : Z
}.

(** The result of [parseGitHubUrl]. *)
Record IssueRef := { owner : string; repo : string; issue_number : Z }.

Inductive Error := MkError (message : string).

Definition Result (A : Type) : Type := A + Error.

(** The collaborators, as oracles: what each call answers. *)
Record Octokit := {
  paginate_listEvents : IssueRef -> Result (list (list IssueEvent));
  issues_get : IssueRef -> Result GithubIssue;
  issues_createComment : IssueRef -> string -> Result unit;
  issues_removeAssignees : IssueRef -> list string -> Result unit
}.

Record Repositories := {
  repositories_get : Result (option (list Row));
  repositories_upsert : UpsertArg -> Result unit;
  repositories_delete : string -> Result unit
}.

Record Context := {
  octokit : Octokit;
  supabase : Repositories;
  config : Config;
  payload : Payload
}.

(** ** Observable calls *)

Inductive Level := info | warn | error.

(** One constructor per logging site of the file. *)
Inductive LogMessage :=
| UnassignThresholdDisabled
| PassedDeadline (u : string)
| ReminderThresholdDisabled
| ShouldSendReminder (u : string) (answer : bool)
| ActivityFound (u : string) (old new : instant)
| NothingToDo (u : string) (now reminder dead : instant)
| NoWatchedRepos
| MissingAssignees (u : string)
| CouldNotGetIssue (u : string).

Inductive Effect :=
| Logged (l : Level) (m : LogMessage)
| ListEvents (r : IssueRef)
| IssuesGet (r : IssueRef)
| CreateComment (r : IssueRef) (body : string)
| RemoveAssignees (r : IssueRef) (logins : list string)
| RepositoriesGet
| RepositoriesUpsert (u : UpsertArg)
| RepositoriesDelete (u : string).

(** What running a computation yields: how it ended, the number of clock
    readings taken so far, and the calls it made, oldest first. *)
Inductive Outcome (A : Type) :=
| Returned (a : A)
| Thrown (e : Error).
Arguments Returned {A} a.
Arguments Thrown {A} e.

Record Run (A : Type) := {
  outcome : Outcome A;
  ticks : nat;
  events : list Effect
}.
Arguments outcome {A} r.
Arguments ticks {A} r.
Arguments events {A} r.

(** ** The monad of asynchronous code *)

(** A computation starts after [t] clock readings. *)
Definition M (A : Type) : Type := nat -> Run A.

Definition ret {A} (a : A) : M A :=
  fun t => {| outcome := Returned a; ticks := t; events := [] |}.

Definition throw {A} (e : Error) : M A :=
  fun t => {| outcome := Thrown e; ticks := t; events := [] |}.

(** [await m] followed by [k]: a rejection of [m] skips [k]. *)
Definition bind {A B} (m : M A) (k : A -> M B) : M B :=
  fun t =>
    let r := m t in
    match outcome r with
    | Returned a =>
        let r' := k a (ticks r) in
        {| outcome := outcome r'; ticks := ticks r'; events := events r ++ events r' |}
    | Thrown e => {| outcome := Thrown e; ticks := ticks r; events := events r |}
    end.

Declare Scope async_scope.
Delimit Scope async_scope with async.
Notation "x <- m ;; k" := (bind m (fun x => k))
  (at level 100, m at next level, right associativity) : async_scope.
Notation "m ;; k" := (bind m (fun _ => k))
  (at level 100, right associativity) : async_scope.
Local Open Scope async_scope.

(** [try { m } catch (e) { h e }] *)
Definition try_catch {A} (m : M A) (h : Error -> M A) : M A :=
  fun t =>
    let r := m t in
    match outcome r with
    | Returned a => r
    | Thrown e =>
        let r' := h e (ticks r) in
        {| outcome := outcome r'; ticks := ticks r'; events := events r ++ events r' |}
    end.

Definition emit (e : Effect) : M unit :=
  fun t => {| outcome := Returned tt; ticks := t; events := [e] |}.

Definition answer {A} (a : Result A) : Outcome A :=
  match a with
  | inl x => Returned x
  | inr err => Thrown err
  end.

(** A call to a collaborator: the call is recorded, then its answer is
    returned or thrown. *)
Definition call {A} (e : Effect) (a : Result A) : M A :=
  fun t => {| outcome := answer a; ticks := t; events := [e] |}.

Definition logger (l : Level) (m : LogMessage) : M unit := emit (Logged l m).

(** [for (const x of l) { await f(x); }] *)
Fixpoint for_of {A} (l : list A) (f : A -> M unit) : M unit :=
  match l with
  | [] => ret tt
  | x :: l' => f x ;; for_of l' f
  end.

(** ** Small JavaScript helpers *)

(** [o?.login] followed by [!!o]: a missing entry and an empty login are
    dropped. *)
Definition truthy_login (o : option User) : option string :=
  match o with
  | Some u => if String.eqb (login u) "" then None else Some (login u)
  | None => None
  end.

(** [assignees.map((o) => o?.login).filter((o) => !!o)] *)
Fixpoint logins_of (l : list (option User)) : list string :=
  match l with
  | [] => []
  | o :: l' =>
      match truthy_login o with
      | Some s => s :: logins_of l'
      | None => logins_of l'
      end
  end.

(** [Array.prototype.join] *)
Fixpoint join (sep : string) (l : list string) : string :=
  match l with
  | [] => ""
  | [x] => x
  | x :: l' => String.append x (String.append sep (join sep l'))
  end.

(** [!githubIssue?.assignees?.length] *)
Definition no_assignees (githubIssue : option GithubIssue) : bool :=
  match githubIssue with
  | Some {| assignees := Some (_ :: _) |} => false
  | _ => true
  end.

(** [githubIssue.assignees] once [no_assignees] is false. *)
Definition assignees_of (githubIssue : option GithubIssue) : list (option User) :=
  match githubIssue with
  | Some {| assignees := Some l |} => l
  | _ => []
  end.

(** [(assignee) => assignee?.login === o.actor.login] *)
Definition same_login (o : IssueEvent) (assignee : option User) : bool :=
  match assignee with
  | Some a => String.eqb (login a) (login (actor o))
  | None => false
  end.

(** [payload.issue?.assignees?.find(...)], as a truth value: [find] returns
    the matching entry, an object, or [undefined]. *)
Definition find_assignee (p : Payload) (o : IssueEvent) : bool :=
  match payload_issue p with
  | Some {| assignees := Some l |} =>
      match List.find (same_login o) l with
      | Some _ => true
      | None => false
      end
  | _ => false
  end.

(** [(o) => find(...) && DateTime.fromISO(o.created_at) >= DateTime.fromISO(issue.last_check)] *)
Definition is_assignee_activity (p : Payload) (issue : Row) (o : IssueEvent) : bool :=
  find_assignee p o && DateTime.geb (created_at o) (last_check issue).

(** [!lastReminder] *)
Definition falsy {A} (o : option A) : bool :=
  match o with
  | Some _ => false
  | None => true
  end.

Definition reminder_body (logins : string) : string :=
  String.append "@"
    (String.append logins ", this task has been idle for a while. Please provide an update.").

(** ** Reading a trace *)

Definition is_comment (e : Effect) : bool :=
  match e with
  | CreateComment _ _ => true
  | _ => false
  end.

Definition is_store_write (e : Effect) : bool :=
  match e with
  | RepositoriesUpsert _ | RepositoriesDelete _ => true
  | _ => false
  end.

Definition is_removal (e : Effect) : bool :=
  match e with
  | RemoveAssignees _ _ | RepositoriesDelete _ => true
  | _ => false
  end.

(** The reminders dispatched, and the calls that mutate the watch store. *)
Definition comments (ev : list Effect) : list Effect := List.filter is_comment ev.
Definition store_writes (ev : list Effect) : list Effect := List.filter is_store_write ev.

(** The calls of an unassignment: the removal of the assignees and the
    deletion of the record. *)
Definition removals (ev : list Effect) : list Effect := List.filter is_removal ev.

Inductive Field := f_url | f_deadline | f_lastReminder | f_lastCheck.

(** The properties present in the object given to [upsert]. *)
Definition written_fields (u : UpsertArg) : list Field :=
  [f_url; f_deadline]
    ++ (if falsy (upsert_lastReminder u) then [] else [f_lastReminder])
    ++ [f_lastCheck].

(** What the assignee resolver's answer is turned into by [getGithubIssue]. *)
Definition resolved (a : Result GithubIssue) : option GithubIssue :=
  match a with
  | inl data => Some data
  | inr _ => None
  end.

(** ** Shapes of runs *)

(** The calls [getGithubIssue] makes, given the resolver's answer: a failed
    read is logged as an error. *)
Definition resolver_events (u : string) (r : IssueRef) (a : Result GithubIssue)
  : list Effect :=
  IssuesGet r ::
  match a with
  | inl _ => []
  | inr _ => [Logged error (CouldNotGetIssue u)]
  end.

(** [await act; return true]. *)
Definition then_true (o : Outcome unit) : Outcome bool :=
  match o with
  | Returned _ => Returned true
  | Thrown e => Thrown e
  end.

(** The run of an executor ([remindAssignees] or [removeIdleAssignees]) on a
    URL that parses: [act] is its one write, answered by [done]. *)
Definition executor_run (u : string) (r : IssueRef) (a : Result GithubIssue)
    (act : Effect) (done : Result unit) (t : nat) : Run bool :=
  if no_assignees (resolved a) then
    {| outcome := Returned false;
       ticks := t;
       events := resolver_events u r a ++ [Logged warn (MissingAssignees u)] |}
  else
    {| outcome := then_true (answer done);
       ticks := t;
       events := resolver_events u r a ++ [act] |}.

(** A run that comes after the calls [ev]. *)
Definition prepend {A} (ev : list Effect) (r : Run A) : Run A :=
  {| outcome := outcome r; ticks := ticks r; events := ev ++ events r |}.

(** ** The watch store *)

Module WatchStore.

(** Modelled from the spec: the supabase adapter behind
    [supabase.repositories] is not part of the sources.  Section 6 asks
    for a keyed upsert by [url] and a delete by [url]; a property that the
    upsert does not carry keeps the stored value. *)
Definition upsert (u : UpsertArg) (m : gmap string Row) : gmap string Row :=
  <[upsert_url u :=
      {| url := upsert_url u;
         deadline := upsert_deadline u;
         last_check := upsert_lastCheck u;
         last_reminder :=
           match upsert_lastReminder u with
           | Some i => Some i
           | None => m !! upsert_url u ≫= last_reminder
           end |}]> m.

(** The effect of one recorded call on the store: only the writes the
    adapter accepted change it. *)
Definition apply (sb : Repositories) (m : gmap string Row) (e : Effect)
  : gmap string Row :=
  match e with
  | RepositoriesUpsert u =>
      match repositories_upsert sb u with
      | inl _ => upsert u m
      | inr _ => m
      end
  | RepositoriesDelete k =>
      match repositories_delete sb k with
      | inl _ => delete k m
      | inr _ => m
      end
  | _ => m
  end.

Definition apply_all (sb : Repositories) (ev : list Effect) (m : gmap string Row)
  : gmap string Row :=
  fold_left (apply sb) ev m.

End WatchStore.

(** ** Concrete collaborators, used to run the code on examples *)

Module Sample.

Definition ref1 : IssueRef := {| owner := "acme"; repo := "app"; issue_number := 1 |}.
Definition ref2 : IssueRef := {| owner := "acme"; repo := "app"; issue_number := 2 |}.
Definition url1 : string := "https://github.com/acme/app/issues/1".
Definition url2 : string := "https://github.com/acme/app/issues/2".

Definition parseGitHubUrl (u : string) : Result IssueRef :=
  if String.eqb u url1 then inl ref1
  else if String.eqb u url2 then inl ref2
  else inr (MkError "Invalid url").

Definition alice : User := {| login := "alice" |}.
Definition bob : User := {| login := "bob" |}.

Definition minute : Z := 60000.

(** The clock stands still at [now]. *)
Definition clock_at (now : instant) : nat -> instant := fun _ => now.

(** An octokit where the issue has the given answer and events, and every
    write is accepted. *)
Definition octokit_with (pages : Result (list (list IssueEvent)))
    (got : Result GithubIssue) : Octokit :=
  {| paginate_listEvents := fun _ => pages;
     issues_get := fun _ => got;
     issues_createComment := fun _ _ => inl tt;
     issues_removeAssignees := fun _ _ => inl tt |}.

Definition assigned_to (l : list (option User)) : GithubIssue :=
  {| assignees := Some l |}.

Definition repositories_with (rows : list Row) : Repositories :=
  {| repositories_get := inl (Some rows);
     repositories_upsert := fun _ => inl tt;
     repositories_delete := fun _ => inl tt |}.

Definition context_with (o : Octokit) (rows : list Row) (unassign remind : Z)
  : Context :=
  {| octokit := o;
     supabase := repositories_with rows;
     config := {| unassignUserThreshold := unassign; sendRemindersThreshold := remind |};
     payload := {| payload_issue := Some (assigned_to [Some alice]) |} |}.

(** A watched item whose deadline is the epoch and that was never
    reminded. *)
Definition row1 : Row :=
  {| url := url1; deadline := 0; last_check := 0; last_reminder := None |}.
Definition row2 : Row :=
  {| url := url2; deadline := 0; last_check := 0; last_reminder := None |}.

Definition event (who : User) (at_ : instant) : IssueEvent :=
  {| actor := who; created_at := at_ |}.

(** Nobody acted; the issue is assigned to alice. *)
Definition quiet : Octokit := octokit_with (inl [[]]) (inl (assigned_to [Some alice])).

(** Alice acted ten minutes after the deadline. *)
Definition busy : Octokit :=
  octokit_with (inl [[event bob (5 * minute)]; [event alice (10 * minute)]])
               (inl (assigned_to [Some alice])).

(** Nobody acted and nobody is assigned. *)
Definition orphan : Octokit := octokit_with (inl [[]]) (inl (assigned_to [])).

(** Nobody acted and the issue cannot be read. *)
Definition unreadable : Octokit := octokit_with (inl [[]]) (inr (MkError "Not Found")).

(** The events of issue 1 cannot be listed; issue 2 is quiet. *)
Definition flaky : Octokit :=
  {| paginate_listEvents := fun r =>
       if (issue_number r =? 1)%Z then inr (MkError "Bad Gateway") else inl [[]];
     issues_get := fun _ => inl (assigned_to [Some alice]);
     issues_createComment := fun _ _ => inl tt;
     issues_removeAssignees := fun _ _ => inl tt |}.

(** Configurations: minutes before unassignment, minutes before a
    reminder. *)
Definition engaged : Context := context_with busy [row1] 120 60.
Definition watched : Context := context_with quiet [row1] 120 60.
Definition lenient : Context := context_with quiet [row1] 0 60.
Definition abandoned : Context := context_with orphan [row1] 120 60.
Definition broken : Context := context_with unreadable [row1] 120 60.
Definition batch : Context := context_with flaky [row1; row2] 120 60.

Definition reminder_text : string :=
  "@alice, this task has been idle for a while. Please provide an update.".

(** The upsert that follows a reminder sent at [now]. *)
Definition reminded_at (now : instant) : UpsertArg :=
  {| upsert_url := url1;
     upsert_deadline := 0;
     upsert_lastReminder := Some now;
     upsert_lastCheck := now |}.

End Sample.

(** ** Writes to GitHub *)

Definition is_github_write (e : Effect) : bool :=
  match e with
  | CreateComment _ _ | RemoveAssignees _ _ => true
  | _ => false
  end.

(** The comments posted and the removals of assignees. *)
Definition github_writes (ev : list Effect) : list Effect := List.filter is_github_write ev.

(** ** The event whitelist of plugin-inputs.ts *)

Module PluginInputs.

Definition eventWhitelist : list string :=
  ["pull_request.review_requested";
   "pull_request.ready_for_review";
   "pull_request_review_comment.created";
   "issue_comment.created";
   "push"].

(** [new Map(entries)]: the entries are set in order, so a later entry
    replaces an earlier one that has the same key. *)
Definition Map_of (entries : list (string * string)) : gmap string string :=
  fold_left (fun m kv => <[fst kv := snd kv]> m) entries ∅.

(** [roleMap.get(webhook)]; [None] is [undefined]. *)
Definition mapWebhookToEvent (webhook : string) : option string :=
  Map_of [("pull_request.review_requested", "review_requested");
          ("pull_request.ready_for_review", "ready_for_review");
          ("pull_request_review_comment.created", "commented");
          ("issue_comment.created", "commented");
          ("push", "committed")] !! webhook.

(** [validEvents.includes(event)] *)
Definition includes (l : list string) (x : string) : bool :=
  existsb (String.eqb x) l.

Definition invalid_event (event : string) : Error :=
  MkError (String.append "Invalid event [" (String.append event "]")).

(** The loop of the [Decode] of [eventWhitelist], from the events already
    pushed on [eventsStripped]. *)
Fixpoint decode_from (eventsStripped : list (option string)) (value : list string)
  : Result (list (option string)) :=
  match value with
  | [] => inl eventsStripped
  | event :: value' =>
      if negb (includes eventWhitelist event) then inr (invalid_event event)
      else decode_from (eventsStripped ++ [mapWebhookToEvent event]) value'
  end.

Definition eventWhitelist_Decode (value : list string) : Result (list (option string)) :=
  decode_from [] value.

(** The [Encode] of [eventWhitelist]: its map is built from five entries, two
    of them under the key ["commented"]. *)
Definition eventWhitelist_Encode (value : list string) : list (option string) :=
  List.map
    (fun event =>
       Map_of [("review_requested", "pull_request.review_requested");
               ("ready_for_review", "pull_request.ready_for_review");
               ("commented", "pull_request_review_comment.created");
               ("commented", "issue_comment.created");
               ("committed", "push")] !! event)
    value.

(** What a webhook name becomes after [Decode] and [Encode]. *)
Definition reencoded (webhook : string) : string :=
  if String.eqb webhook "pull_request_review_comment.created"
  then "issue_comment.created"
  else webhook.

End PluginInputs.

(** ** More collaborators for examples *)

Module Scenario.

(** A run triggered by an event that carries no issue, such as a push,
    while alice and bob act on the watched issue. *)
Definition pushed : Context :=
  {| octokit := Sample.busy;
     supabase := Sample.repositories_with [Sample.row1];
     config := {| unassignUserThreshold := 120; sendRemindersThreshold := 60 |};
     payload := {| payload_issue := None |} |}.

(** Nobody acted, alice is assigned, and GitHub refuses every write. *)
Definition read_only : Octokit :=
  {| paginate_listEvents := fun _ => inl [[]];
     issues_get := fun _ => inl (Sample.assigned_to [Some Sample.alice]);
     issues_createComment := fun _ _ => inr (MkError "Forbidden");
     issues_removeAssignees := fun _ _ => inr (MkError "Forbidden") |}.

Definition refused : Context := Sample.context_with read_only [Sample.row1] 120 60.

(** Nobody acted; the assignee list holds alice, a missing entry, an entry
    with an empty login, and bob. *)
Definition crowded : Octokit :=
  Sample.octokit_with (inl [[]])
    (inl (Sample.assigned_to
            [Some Sample.alice; None; Some {| login := "" |}; Some Sample.bob])).

Definition shared : Context := Sample.context_with crowded [Sample.row1] 120 60.

(** The reminder comes later than the unassignment. *)
Definition inverted : Context := Sample.context_with Sample.quiet [Sample.row1] 60 120.

(** Reminders are switched off. *)
Definition silent : Context := Sample.context_with Sample.quiet [Sample.row1] 120 0.

(** Two quiet items, both within due time. *)
Definition calm : Context :=
  Sample.context_with Sample.quiet [Sample.row1; Sample.row2] 120 60.

(** Nothing is watched. *)
Definition idle : Context := Sample.context_with Sample.quiet [] 120 60.


End Scenario.

(** ** Instants luxon can hold *)

(** A luxon [DateTime] is valid when its instant, shifted by the offset of
    its zone, fits a JavaScript [Date] (8.64e15 ms either side of the
    epoch); an invalid one has [NaN] for [valueOf] and every [>=] on it is
    false.  The instants below are valid in every zone: they stay one day
    inside that range. *)
Definition representable (i : instant) : Prop :=
  -8639999913600000 <= i <= 8639999913600000.

(** ** The filter on events as GitHub lists them *)

(** An event of the listing: its actor may be [null]. *)
Record ListedEvent := { listed_actor : option User; listed_created_at : instant }.

(** The [TypeError] of [o.actor.login] on a [null] actor. *)
Definition null_login : Error :=
  MkError "Cannot read properties of null (reading 'login')".

(** [assignees.find((assignee) => assignee?.login === o.actor.login)], as a
    truth value: the callback reads [o.actor.login] each time it is called,
    and is not called on an empty list. *)
Fixpoint find_listed (o : ListedEvent) (l : list (option User)) : Result bool :=
  match l with
  | [] => inl false
  | assignee :: l' =>
      match listed_actor o with
      | None => inr null_login
      | Some by_whom =>
          if match assignee with
             | Some a => String.eqb (login a) (login by_whom)
             | None => false
             end
          then inl true
          else find_listed o l'
      end
  end.

(** The callback given to [filter], lines 110-112. *)
Definition keep_listed (p : Payload) (issue : Row) (o : ListedEvent) : Result bool :=
  match payload_issue p with
  | Some {| assignees := Some l |} =>
      match find_listed o l with
      | inl found =>
          inl (found && DateTime.geb (listed_created_at o) (last_check issue))
      | inr e => inr e
      end
  | _ => inl false
  end.

(** [data.filter(keep)] with a callback that may throw. *)
Fixpoint filter_listed {A} (keep : A -> Result bool) (data : list A) : Result (list A) :=
  match data with
  | [] => inl []
  | o :: data' =>
      match keep o with
      | inr e => inr e
      | inl k =>
          match filter_listed keep data' with
          | inr e => inr e
          | inl kept => inl (if k then o :: kept else kept)
          end
      end
  end.

(** What [octokit.paginate] makes of the pages: the filter is applied to
    each page in turn and the results are concatenated. *)
Fixpoint listed_activity (p : Payload) (issue : Row) (pages : list (list ListedEvent))
  : Result (list ListedEvent) :=
  match pages with
  | [] => inl []
  | data :: pages' =>
      match filter_listed (keep_listed p issue) data with
      | inr e => inr e
      | inl kept =>
          match listed_activity p issue pages' with
          | inr e => inr e
          | inl rest => inl (kept ++ rest)
          end
      end
  end.

(** An event with its actor, as the listing has it. *)
Definition with_actor (o : IssueEvent) : ListedEvent :=
  {| listed_actor := Some (actor o); listed_created_at := created_at o |}.

(** ** The functions of update-tasks.ts *)

Section UpdateTasks.

(** [parseGitHubUrl] is imported from [./github-url]; it either yields the
    three coordinates of the issue or throws. *)
Variable parseGitHubUrl : string -> Result IssueRef.

(** The system clock: the [n]-th reading of [DateTime.now()]. *)
Variable clock : nat -> instant.

Definition DateTime_now : M instant :=
  fun t => {| outcome := Returned (clock t); ticks := S t; events := [] |}.

Definition parse (u : string) : M IssueRef :=
  match parseGitHubUrl u with
  | inl r => ret r
  | inr e => throw e
  end.

Definition getGithubIssue (context : Context) (issue : Row) : M (option GithubIssue) :=
  r <- parse (url issue) ;;
  try_catch
    (data <- call (IssuesGet r) (issues_get (octokit context) r) ;;
     ret (Some data))
    (fun _ =>
       logger error (CouldNotGetIssue (url issue)) ;;
       ret None).

Definition removeIdleAssignees (context : Context) (issue : Row) : M bool :=
  githubIssue <- getGithubIssue context issue ;;
  r <- parse (url issue) ;;
  if no_assignees githubIssue then
    logger warn (MissingAssignees (url issue)) ;;
    ret false
  else
    let logins := logins_of (assignees_of githubIssue) in
    call (RemoveAssignees r logins)
         (issues_removeAssignees (octokit context) r logins) ;;
    ret true.

Definition remindAssignees (context : Context) (issue : Row) : M bool :=
  githubIssue <- getGithubIssue context issue ;;
  r <- parse (url issue) ;;
  if no_assignees githubIssue then
    logger warn (MissingAssignees (url issue)) ;;
    ret false
  else
    let logins := join ", @" (logins_of (assignees_of githubIssue)) in
    call (CreateComment r (reminder_body logins))
         (issues_createComment (octokit context) r (reminder_body logins)) ;;
    ret true.

Definition getAssigneesActivityForIssue (context : Context) (issue : Row)
  : M (list IssueEvent) :=
  r <- parse (url issue) ;;
  pages <- call (ListEvents r) (paginate_listEvents (octokit context) r) ;;
  ret (flat_map
         (fun data => List.filter (is_assignee_activity (payload context) issue) data)
         pages).

Definition unassignUserFromIssue (context : Context) (issue : Row) : M unit :=
  if unassignUserThreshold (config context) <=? 0 then
    logger info UnassignThresholdDisabled
  else
    logger info (PassedDeadline (url issue)) ;;
    removed <- removeIdleAssignees context issue ;;
    if removed then
      call (RepositoriesDelete (url issue))
           (repositories_delete (supabase context) (url issue))
    else ret tt.

Definition remindAssigneesForIssue (context : Context) (issue : Row) : M unit :=
  now <- DateTime_now ;;
  let deadline := deadline issue in
  if sendRemindersThreshold (config context) <=? 0 then
    logger info ReminderThresholdDisabled
  else
    let lastReminder := last_reminder issue in
    logger info (ShouldSendReminder (url issue) (falsy lastReminder)) ;;
    if falsy lastReminder then
      reminded <- remindAssignees context issue ;;
      if reminded then
        let u := {| upsert_url := url issue;
                    upsert_deadline := deadline;
                    upsert_lastReminder := Some now;
                    upsert_lastCheck := now |} in
        call (RepositoriesUpsert u) (repositories_upsert (supabase context) u)
      else ret tt
    else ret tt.

Definition updateReminders (context : Context) (issue : Row) : M unit :=
  now <- DateTime_now ;;
  activity <- getAssigneesActivityForIssue context issue ;;
  let deadline := deadline issue in
  let deadlineWithThreshold :=
    DateTime.plus deadline (DateTime.minutes (unassignUserThreshold (config context))) in
  let reminderWithThreshold :=
    DateTime.plus deadline (DateTime.minutes (sendRemindersThreshold (config context))) in
  match activity with
  | _ :: _ =>
      let lastCheck := last_check issue in
      let timeDiff := DateTime.diff now lastCheck in
      let newDeadline := DateTime.plus deadline timeDiff in
      logger info (ActivityFound (url issue) deadline newDeadline) ;;
      let u := {| upsert_url := url issue;
                  upsert_deadline := newDeadline;
                  upsert_lastReminder := None;
                  upsert_lastCheck := now |} in
      call (RepositoriesUpsert u) (repositories_upsert (supabase context) u)
  | [] =>
      if DateTime.geb now deadlineWithThreshold then
        unassignUserFromIssue context issue
      else if DateTime.geb now reminderWithThreshold then
        remindAssigneesForIssue context issue
      else
        logger info (NothingToDo (url issue) now reminderWithThreshold deadlineWithThreshold)
  end.

Definition updateTasks (context : Context) : M bool :=
  watchedRepoList <- call RepositoriesGet (repositories_get (supabase context)) ;;
  match watchedRepoList with
  | None | Some [] =>
      logger info NoWatchedRepos ;;
      ret false
  | Some l =>
      for_of l (updateReminders context) ;;
      ret true
  end.


(** ** Reasoning steps *)

(** Unfolds the primitives of the monad, not the functions built on them. *)
Ltac unfold_async :=
  unfold parse, DateTime_now, logger, emit, call, try_catch, bind, ret, throw.

Lemma find_assignee_spec (p : Payload) (o : IssueEvent) :
  find_assignee p o = true <->
  exists a, In (Some a) (assignees_of (payload_issue p)) /\ login a = login (actor o).
Proof.
  unfold find_assignee, assignees_of.
  destruct (payload_issue p) as [[[l|]]|]; simpl;
    try (split; [discriminate | intros (a & [] & _)]).
  destruct (find (same_login o) l) as [x|] eqn:Hfind; split; intro H; try discriminate; auto.
  - apply find_some in Hfind as [Hin Hsame].
    destruct x as [a|]; simpl in Hsame; [|discriminate].
    exists a. split; [assumption | now apply String.eqb_eq].
  - destruct H as (a & Hin & Hlogin).
    apply (find_none _ _ Hfind) in Hin. simpl in Hin.
    apply String.eqb_neq in Hin. contradiction.
Qed.

Lemma is_assignee_activity_spec (p : Payload) (issue : Row) (o : IssueEvent) :
  is_assignee_activity p issue o = true <->
  (exists a, In (Some a) (assignees_of (payload_issue p)) /\ login a = login (actor o))
  /\ last_check issue <= created_at o.
Proof.
  unfold is_assignee_activity, DateTime.geb.
  rewrite andb_true_iff, find_assignee_spec, Z.leb_le. reflexivity.
Qed.

Lemma flat_map_filter {A} (f : A -> bool) (pages : list (list A)) :
  flat_map (fun data => List.filter f data) pages = List.filter f (concat pages).
Proof.
  induction pages as [|data pages IH]; simpl; [reflexivity|].
  now rewrite List.filter_app, IH.
Qed.

(** The activity fetch, when the URL parses and the listing succeeds. *)
Lemma getAssigneesActivityForIssue_ok context issue t r pages :
  parseGitHubUrl (url issue) = inl r ->
  paginate_listEvents (octokit context) r = inl pages ->
  getAssigneesActivityForIssue context issue t =
    {| outcome := Returned (List.filter (is_assignee_activity (payload context) issue)
                                        (concat pages));
       ticks := t;
       events := [ListEvents r] |}.
Proof.
  intros Hp Hl. unfold getAssigneesActivityForIssue. unfold_async.
  rewrite Hp; simpl. rewrite Hl; simpl.
  now rewrite flat_map_filter.
Qed.

Lemma getAssigneesActivityForIssue_bad_url context issue t e :
  parseGitHubUrl (url issue) = inr e ->
  getAssigneesActivityForIssue context issue t =
    {| outcome := Thrown e; ticks := t; events := [] |}.
Proof.
  intros Hp. unfold getAssigneesActivityForIssue. unfold_async.
  now rewrite Hp.
Qed.

Lemma getAssigneesActivityForIssue_no_listing context issue t r e :
  parseGitHubUrl (url issue) = inl r ->
  paginate_listEvents (octokit context) r = inr e ->
  getAssigneesActivityForIssue context issue t =
    {| outcome := Thrown e; ticks := t; events := [ListEvents r] |}.
Proof.
  intros Hp Hl. unfold getAssigneesActivityForIssue. unfold_async.
  rewrite Hp; simpl. now rewrite Hl.
Qed.

(** The evaluation of an item on which activity was found. *)
Lemma updateReminders_activity context issue t r pages :
  parseGitHubUrl (url issue) = inl r ->
  paginate_listEvents (octokit context) r = inl pages ->
  List.filter (is_assignee_activity (payload context) issue) (concat pages) <> [] ->
  let now := clock t in
  let newDeadline := deadline issue + (now - last_check issue) in
  let u := {| upsert_url := url issue;
              upsert_deadline := newDeadline;
              upsert_lastReminder := None;
              upsert_lastCheck := now |} in
  updateReminders context issue t =
    {| outcome := answer (repositories_upsert (supabase context) u);
       ticks := S t;
       events := [ListEvents r;
                  Logged info (ActivityFound (url issue) (deadline issue) newDeadline);
                  RepositoriesUpsert u] |}.
Proof.
  intros Hp Hl Hne now newDeadline u.
  unfold updateReminders, bind, DateTime_now; simpl.
  rewrite (getAssigneesActivityForIssue_ok _ _ _ _ _ Hp Hl); simpl.
  destruct (List.filter _ _) as [|o activity]; [contradiction|].
  reflexivity.
Qed.

(** ** The claims *)

(** C2. When the fetched activity signal is not empty, the evaluation
    upserts [deadline := old deadline + (now - lastCheck)] and
    [lastCheck := now]; this holds whatever the two thresholds are and
    however far [now] is past them, and the only calls made are the
    listing of the events, the log line and that upsert: no executor runs. *)
Theorem activity_moves_deadline_first context issue t r pages :
  parseGitHubUrl (url issue) = inl r ->
  paginate_listEvents (octokit context) r = inl pages ->
  List.filter (is_assignee_activity (payload context) issue) (concat pages) <> [] ->
  exists u,
    upsert_url u = url issue /\
    upsert_deadline u = deadline issue + (clock t - last_check issue) /\
    upsert_lastCheck u = clock t /\
    events (updateReminders context issue t) =
      [ListEvents r;
       Logged info (ActivityFound (url issue) (deadline issue) (upsert_deadline u));
       RepositoriesUpsert u] /\
    outcome (updateReminders context issue t) =
      answer (repositories_upsert (supabase context) u).
Proof.
  intros Hp Hl Hne.
  rewrite (updateReminders_activity _ _ _ _ _ Hp Hl Hne); simpl.
  eexists; repeat split; reflexivity.
Qed.

(** C10. On the activity branch the store is written once, by an upsert
    whose object has exactly the properties [url], [deadline] and
    [lastCheck]: [lastReminder] is not written. *)
Theorem activity_upsert_leaves_lastReminder_out context issue t r pages :
  parseGitHubUrl (url issue) = inl r ->
  paginate_listEvents (octokit context) r = inl pages ->
  List.filter (is_assignee_activity (payload context) issue) (concat pages) <> [] ->
  exists u,
    store_writes (events (updateReminders context issue t)) = [RepositoriesUpsert u] /\
    written_fields u = [f_url; f_deadline; f_lastCheck] /\
    ~ In f_lastReminder (written_fields u) /\
    upsert_lastReminder u = None.
Proof.
  intros Hp Hl Hne.
  rewrite (updateReminders_activity _ _ _ _ _ Hp Hl Hne); simpl.
  eexists; split; [reflexivity|]. simpl.
  repeat split; try reflexivity.
  intros [H|[H|[H|[]]]]; discriminate.
Qed.


(** ** The runs of the executors *)

Lemma getGithubIssue_run context issue t r :
  parseGitHubUrl (url issue) = inl r ->
  getGithubIssue context issue t =
    {| outcome := Returned (resolved (issues_get (octokit context) r));
       ticks := t;
       events := resolver_events (url issue) r (issues_get (octokit context) r) |}.
Proof.
  intros Hp. unfold getGithubIssue. unfold_async. rewrite Hp; simpl.
  destruct (issues_get _ _); reflexivity.
Qed.

Lemma removeIdleAssignees_run context issue t r :
  parseGitHubUrl (url issue) = inl r ->
  let a := issues_get (octokit context) r in
  let logins := logins_of (assignees_of (resolved a)) in
  removeIdleAssignees context issue t =
    executor_run (url issue) r a (RemoveAssignees r logins)
                 (issues_removeAssignees (octokit context) r logins) t.
Proof.
  intros Hp a logins. unfold removeIdleAssignees, bind.
  rewrite (getGithubIssue_run _ _ _ _ Hp); simpl.
  unfold parse. rewrite Hp; simpl. unfold executor_run. fold a.
  destruct (no_assignees (resolved a)); simpl.
  - now rewrite ?app_nil_r.
  - fold logins. destruct (issues_removeAssignees _ _ _); simpl;
      now rewrite ?app_nil_r.
Qed.

Lemma remindAssignees_run context issue t r :
  parseGitHubUrl (url issue) = inl r ->
  let a := issues_get (octokit context) r in
  let body := reminder_body (join ", @" (logins_of (assignees_of (resolved a)))) in
  remindAssignees context issue t =
    executor_run (url issue) r a (CreateComment r body)
                 (issues_createComment (octokit context) r body) t.
Proof.
  intros Hp a body. unfold remindAssignees, bind.
  rewrite (getGithubIssue_run _ _ _ _ Hp); simpl.
  unfold parse. rewrite Hp; simpl. unfold executor_run. fold a.
  destruct (no_assignees (resolved a)); simpl.
  - now rewrite ?app_nil_r.
  - fold body. destruct (issues_createComment _ _ _); simpl;
      now rewrite ?app_nil_r.
Qed.

(** ** The runs of the evaluation *)

Lemma updateReminders_bad_url context issue t e :
  parseGitHubUrl (url issue) = inr e ->
  updateReminders context issue t =
    {| outcome := Thrown e; ticks := S t; events := [] |}.
Proof.
  intros Hp. unfold updateReminders, bind, DateTime_now; simpl.
  now rewrite (getAssigneesActivityForIssue_bad_url _ _ _ _ Hp).
Qed.

Lemma updateReminders_no_listing context issue t r e :
  parseGitHubUrl (url issue) = inl r ->
  paginate_listEvents (octokit context) r = inr e ->
  updateReminders context issue t =
    {| outcome := Thrown e; ticks := S t; events := [ListEvents r] |}.
Proof.
  intros Hp Hl. unfold updateReminders, bind, DateTime_now; simpl.
  now rewrite (getAssigneesActivityForIssue_no_listing _ _ _ _ _ Hp Hl).
Qed.

(** Without activity the evaluation is one of the two wrappers, chosen by
    the clock alone, or a log line. *)
Lemma updateReminders_quiet context issue t r pages :
  parseGitHubUrl (url issue) = inl r ->
  paginate_listEvents (octokit context) r = inl pages ->
  List.filter (is_assignee_activity (payload context) issue) (concat pages) = [] ->
  let now := clock t in
  let deadlineWithThreshold :=
    deadline issue + DateTime.minutes (unassignUserThreshold (config context)) in
  let reminderWithThreshold :=
    deadline issue + DateTime.minutes (sendRemindersThreshold (config context)) in
  updateReminders context issue t =
    prepend [ListEvents r]
      (if deadlineWithThreshold <=? now then
         unassignUserFromIssue context issue (S t)
       else if reminderWithThreshold <=? now then
         remindAssigneesForIssue context issue (S t)
       else
         logger info (NothingToDo (url issue) now reminderWithThreshold
                                  deadlineWithThreshold) (S t)).
Proof.
  intros Hp Hl Hq now dwt rwt.
  unfold updateReminders, bind, DateTime_now; simpl.
  rewrite (getAssigneesActivityForIssue_ok _ _ _ _ _ Hp Hl); simpl.
  rewrite Hq. unfold DateTime.geb, DateTime.plus, prepend. fold now dwt rwt.
  destruct (dwt <=? now); [reflexivity|].
  destruct (rwt <=? now); reflexivity.
Qed.

Lemma unassignUserFromIssue_run context issue t r :
  parseGitHubUrl (url issue) = inl r ->
  let removal := removeIdleAssignees context issue t in
  unassignUserFromIssue context issue t =
    if unassignUserThreshold (config context) <=? 0 then
      {| outcome := Returned tt; ticks := t;
         events := [Logged info UnassignThresholdDisabled] |}
    else
      {| outcome :=
           match outcome removal with
           | Returned true => answer (repositories_delete (supabase context) (url issue))
           | Returned false => Returned tt
           | Thrown e => Thrown e
           end;
         ticks := t;
         events :=
           Logged info (PassedDeadline (url issue)) :: events removal ++
           match outcome removal with
           | Returned true => [RepositoriesDelete (url issue)]
           | _ => []
           end |}.
Proof.
  intros Hp removal. unfold unassignUserFromIssue.
  destruct (_ <=? 0); [reflexivity|].
  unfold bind, logger, emit, call, ret; simpl. subst removal.
  rewrite (removeIdleAssignees_run _ _ _ _ Hp). unfold executor_run.
  destruct (no_assignees _); simpl; [now rewrite ?app_nil_r|].
  destruct (answer (issues_removeAssignees _ _ _)); simpl;
    now rewrite ?app_nil_r.
Qed.

Lemma remindAssigneesForIssue_run context issue t r :
  parseGitHubUrl (url issue) = inl r ->
  let now := clock t in
  let dispatch := remindAssignees context issue (S t) in
  let u := {| upsert_url := url issue;
              upsert_deadline := deadline issue;
              upsert_lastReminder := Some now;
              upsert_lastCheck := now |} in
  remindAssigneesForIssue context issue t =
    if sendRemindersThreshold (config context) <=? 0 then
      {| outcome := Returned tt; ticks := S t;
         events := [Logged info ReminderThresholdDisabled] |}
    else if falsy (last_reminder issue) then
      {| outcome :=
           match outcome dispatch with
           | Returned true => answer (repositories_upsert (supabase context) u)
           | Returned false => Returned tt
           | Thrown e => Thrown e
           end;
         ticks := S t;
         events :=
           Logged info (ShouldSendReminder (url issue) true) :: events dispatch ++
           match outcome dispatch with
           | Returned true => [RepositoriesUpsert u]
           | _ => []
           end |}
    else
      {| outcome := Returned tt; ticks := S t;
         events := [Logged info (ShouldSendReminder (url issue) false)] |}.
Proof.
  intros Hp now dispatch u. unfold remindAssigneesForIssue.
  unfold bind at 1. unfold DateTime_now at 1 2 3; simpl.
  destruct (_ <=? 0); [reflexivity|].
  destruct (falsy (last_reminder issue)); [|reflexivity].
  unfold bind, logger, emit, call, ret; simpl. subst dispatch.
  rewrite (remindAssignees_run _ _ _ _ Hp). unfold executor_run.
  destruct (no_assignees _); simpl; [now rewrite ?app_nil_r|].
  destruct (answer (issues_createComment _ _ _)); simpl;
    now rewrite ?app_nil_r.
Qed.

(** Splits an evaluation into its runs: the URL does not parse, the
    listing fails, activity was found, or one of the quiet branches. *)
Ltac split_runs_of context issue :=
  let r := fresh "r" in
  let e := fresh "e" in
  let pages := fresh "pages" in
  let Hp := fresh "Hp" in
  let Hl := fresh "Hl" in
  let Hq := fresh "Hq" in
  destruct (parseGitHubUrl (url issue)) as [r|e] eqn:Hp;
  [ destruct (paginate_listEvents (octokit context) r) as [pages|e] eqn:Hl;
    [ destruct (List.filter (is_assignee_activity (payload context) issue)
                            (concat pages)) eqn:Hq;
      [ rewrite (updateReminders_quiet _ _ _ _ _ Hp Hl Hq) in *;
        rewrite (unassignUserFromIssue_run _ _ _ _ Hp) in *;
        rewrite (remindAssigneesForIssue_run _ _ _ _ Hp) in *;
        rewrite (removeIdleAssignees_run _ _ _ _ Hp) in *;
        rewrite (remindAssignees_run _ _ _ _ Hp) in *;
        unfold executor_run, resolver_events, prepend, logger, emit in *
      | rewrite (updateReminders_activity _ _ _ _ _ Hp Hl) in *
          by (rewrite Hq; discriminate) ]
    | rewrite (updateReminders_no_listing _ _ _ _ _ Hp Hl) in * ]
  | rewrite (updateReminders_bad_url _ _ _ _ Hp) in * ].

Ltac split_runs :=
  match goal with
  | |- context [updateReminders ?c ?i _] => split_runs_of c i
  end.

(** Decides one test of a run whose scrutinee holds no further test. *)
Ltac atomic x :=
  lazymatch x with
  | context [match _ with _ => _ end] => fail
  | _ => idtac
  end.

Ltac reduce_run :=
  cbn [outcome ticks events app then_true answer In comments store_writes
       removals List.filter is_comment is_store_write is_removal] in *.

Ltac decide_run :=
  unfold then_true, answer in *;
  reduce_run;
  repeat (match goal with
          | |- context [match ?x with _ => _ end] => atomic x; destruct x eqn:?
          | H : context [match ?x with _ => _ end] |- _ => atomic x; destruct x eqn:?
          end; reduce_run).

(** C7. Whenever the evaluation posted a reminder comment and the post
    succeeded, the store is written once, by an upsert that sets
    [lastReminder] and [lastCheck] to the instant read by
    [remindAssigneesForIssue] (the second clock reading of the
    evaluation) and repeats the row's own [deadline]. *)
Theorem reminder_success_keeps_deadline context issue t r body :
  In (CreateComment r body) (events (updateReminders context issue t)) ->
  issues_createComment (octokit context) r body = inl tt ->
  store_writes (events (updateReminders context issue t)) =
    [RepositoriesUpsert {| upsert_url := url issue;
                           upsert_deadline := deadline issue;
                           upsert_lastReminder := Some (clock (S t));
                           upsert_lastCheck := clock (S t) |}].
Proof.
  intros Hin Hok. split_runs.
  all: decide_run; try reflexivity.
  all: repeat match goal with H : _ \/ _ |- _ => destruct H end;
    try discriminate; try contradiction.
  all: match goal with
       | H : CreateComment _ _ = CreateComment _ _ |- _ =>
           injection H as Hr Hb; rewrite <- Hr, <- Hb in Hok
       end.
  all: simpl in *; rewrite Hok in *; discriminate.
Qed.

(** An item that carries a [last_reminder] is never sent a comment,
    whatever the clock, the configuration and the collaborators do. *)
Lemma reminded_item_gets_no_comment context issue t :
  falsy (last_reminder issue) = false ->
  comments (events (updateReminders context issue t)) = [].
Proof.
  intros Hsent. split_runs.
  all: decide_run; try reflexivity; congruence.
Qed.

(** With the unassign threshold at zero or below, no evaluation removes
    an assignee or deletes a record. *)
Lemma disabled_unassign_removes_nothing context issue t :
  unassignUserThreshold (config context) <= 0 ->
  removals (events (updateReminders context issue t)) = [].
Proof.
  intros Hoff. apply Z.leb_le in Hoff. split_runs.
  all: decide_run; try reflexivity; congruence.
Qed.

(** C4, as the code has it. With an empty activity signal, an unassign
    threshold above zero, and [now] at or past both
    [deadline + unassignUserThreshold] and [deadline + sendRemindersThreshold],
    the evaluation is the run of [removeIdleAssignees] (the resolver is
    called and, when it finds assignees, their removal is issued),
    followed by the delete when the removal succeeded; no reminder comment
    is posted. *)
Theorem past_both_unassigns_not_reminds context issue t r pages :
  parseGitHubUrl (url issue) = inl r ->
  paginate_listEvents (octokit context) r = inl pages ->
  List.filter (is_assignee_activity (payload context) issue) (concat pages) = [] ->
  0 < unassignUserThreshold (config context) ->
  deadline issue + DateTime.minutes (unassignUserThreshold (config context)) <= clock t ->
  deadline issue + DateTime.minutes (sendRemindersThreshold (config context)) <= clock t ->
  events (updateReminders context issue t) =
    ListEvents r :: Logged info (PassedDeadline (url issue)) ::
    events (removeIdleAssignees context issue (S t)) ++
    match outcome (removeIdleAssignees context issue (S t)) with
    | Returned true => [RepositoriesDelete (url issue)]
    | _ => []
    end /\
  In (IssuesGet r) (events (removeIdleAssignees context issue (S t))) /\
  (no_assignees (resolved (issues_get (octokit context) r)) = false ->
   exists logins,
     In (RemoveAssignees r logins) (events (removeIdleAssignees context issue (S t)))) /\
  comments (events (updateReminders context issue t)) = [].
Proof.
  intros Hp Hl Hq Hon Hpast _.
  apply Z.leb_le in Hpast. apply Z.leb_gt in Hon.
  rewrite (updateReminders_quiet _ _ _ _ _ Hp Hl Hq), Hpast.
  rewrite (unassignUserFromIssue_run _ _ _ _ Hp), Hon.
  rewrite (removeIdleAssignees_run _ _ _ _ Hp).
  unfold executor_run, resolver_events, prepend.
  decide_run; repeat split; try reflexivity; try congruence; simpl; eauto 6.
Qed.

(** The store model gives back the [lastReminder] an accepted upsert
    carried. *)
Lemma upsert_read_back (sb : Repositories) (u : UpsertArg) (i : instant)
    (m : gmap string Row) :
  repositories_upsert sb u = inl tt ->
  upsert_lastReminder u = Some i ->
  exists issue',
    WatchStore.apply_all sb [RepositoriesUpsert u] m !! upsert_url u = Some issue' /\
    url issue' = upsert_url u /\
    deadline issue' = upsert_deadline u /\
    last_reminder issue' = Some i.
Proof.
  intros Hput Hsome. unfold WatchStore.apply_all; cbn [fold_left WatchStore.apply].
  rewrite Hput. unfold WatchStore.upsert. rewrite lookup_insert_eq, Hsome.
  eexists; repeat split.
Qed.

(** Calls that are not accepted writes leave the store as it is. *)
Lemma apply_all_without_writes (sb : Repositories) (ev : list Effect)
    (m : gmap string Row) :
  store_writes ev = [] -> WatchStore.apply_all sb ev m = m.
Proof.
  unfold WatchStore.apply_all, store_writes.
  revert m. induction ev as [|e ev IH]; intros m Hnone; [reflexivity|].
  simpl in *. destruct e; simpl in *; try discriminate; now apply IH.
Qed.

(** C5, as the code has it. An item between its reminder instant and its
    disqualification instant, with a reminder threshold above zero, no
    [last_reminder], an empty activity signal and at least one assignee
    found by the resolver, is sent exactly one comment when the post is
    accepted, and the upsert that follows carries [lastReminder]; no
    evaluation of the item read back with that [lastReminder] posts a
    comment, whatever the clock and the collaborators then are. *)
Theorem due_reminder_sent_once context issue t r pages data :
  parseGitHubUrl (url issue) = inl r ->
  paginate_listEvents (octokit context) r = inl pages ->
  List.filter (is_assignee_activity (payload context) issue) (concat pages) = [] ->
  0 < sendRemindersThreshold (config context) ->
  deadline issue + DateTime.minutes (sendRemindersThreshold (config context)) <= clock t ->
  clock t < deadline issue + DateTime.minutes (unassignUserThreshold (config context)) ->
  last_reminder issue = None ->
  issues_get (octokit context) r = inl data ->
  no_assignees (Some data) = false ->
  issues_createComment (octokit context) r
    (reminder_body (join ", @" (logins_of (assignees_of (Some data))))) = inl tt ->
  exists body u,
    comments (events (updateReminders context issue t)) = [CreateComment r body] /\
    store_writes (events (updateReminders context issue t)) = [RepositoriesUpsert u] /\
    upsert_url u = url issue /\
    upsert_lastReminder u = Some (clock (S t)) /\
    outcome (updateReminders context issue t) =
      answer (repositories_upsert (supabase context) u) /\
    forall issue' context' t',
      last_reminder issue' = upsert_lastReminder u ->
      comments (events (updateReminders context' issue' t')) = [].
Proof.
  intros Hp Hl Hq Hon Hdue Hnot Hnone Hget Hsome Hpost.
  apply Z.leb_le in Hdue. apply Z.leb_gt in Hnot. apply Z.leb_gt in Hon.
  rewrite (updateReminders_quiet _ _ _ _ _ Hp Hl Hq), Hnot, Hdue.
  rewrite (remindAssigneesForIssue_run _ _ _ _ Hp), Hon, Hnone.
  rewrite (remindAssignees_run _ _ _ _ Hp).
  unfold executor_run, resolver_events, prepend.
  rewrite Hget. cbn [resolved falsy]. rewrite Hsome, Hpost.
  cbn [outcome ticks events app then_true answer].
  eexists _, _. repeat split.
  intros issue' context' t' Hback.
  apply reminded_item_gets_no_comment. now rewrite Hback.
Qed.

(** C6, as the code has it. When the assignee resolver fails, the failure
    is caught inside [getGithubIssue] and logged; both executors then
    take the no-assignee exit and answer [false]; with an empty activity
    signal the evaluation returns normally and writes nothing to the
    store. *)
Theorem resolver_failure_is_swallowed context issue t r e pages :
  parseGitHubUrl (url issue) = inl r ->
  issues_get (octokit context) r = inr e ->
  paginate_listEvents (octokit context) r = inl pages ->
  List.filter (is_assignee_activity (payload context) issue) (concat pages) = [] ->
  remindAssignees context issue t =
    {| outcome := Returned false; ticks := t;
       events := [IssuesGet r;
                  Logged error (CouldNotGetIssue (url issue));
                  Logged warn (MissingAssignees (url issue))] |} /\
  removeIdleAssignees context issue t =
    {| outcome := Returned false; ticks := t;
       events := [IssuesGet r;
                  Logged error (CouldNotGetIssue (url issue));
                  Logged warn (MissingAssignees (url issue))] |} /\
  outcome (updateReminders context issue t) = Returned tt /\
  store_writes (events (updateReminders context issue t)) = [].
Proof.
  intros Hp Hget Hl Hq.
  rewrite (remindAssignees_run _ _ _ _ Hp), (removeIdleAssignees_run _ _ _ _ Hp).
  unfold executor_run, resolver_events. rewrite Hget. cbn [resolved no_assignees app].
  split; [reflexivity|]. split; [reflexivity|].
  rewrite (updateReminders_quiet _ _ _ _ _ Hp Hl Hq).
  rewrite (unassignUserFromIssue_run _ _ _ _ Hp).
  rewrite (remindAssigneesForIssue_run _ _ _ _ Hp).
  rewrite (remindAssignees_run _ _ _ _ Hp), (removeIdleAssignees_run _ _ _ _ Hp).
  unfold executor_run, resolver_events, prepend, logger, emit. rewrite Hget.
  cbn [resolved no_assignees].
  decide_run; split; reflexivity.
Qed.

(** The loop stops at the first evaluation that throws. *)
Lemma for_of_stops {A} (f : A -> M unit) (pre : list A) (x : A) (post : list A) t e :
  outcome (for_of pre f t) = Returned tt ->
  outcome (f x (ticks (for_of pre f t))) = Thrown e ->
  for_of (pre ++ x :: post) f t =
    {| outcome := Thrown e;
       ticks := ticks (f x (ticks (for_of pre f t)));
       events := events (for_of pre f t) ++ events (f x (ticks (for_of pre f t))) |}.
Proof.
  revert t. induction pre as [|y pre IH]; intros t Hpre Hx; simpl in *.
  - unfold bind. now rewrite Hx.
  - unfold bind in *. destruct (outcome (f y t)) eqn:Hy; [|discriminate].
    simpl in *. rewrite (IH _ Hpre Hx). simpl. now rewrite app_assoc.
Qed.

(** C3, as the code has it. When the evaluation of one watched item
    throws, [updateTasks] throws the same error at once: the pass holds
    the evaluations of the items before it and of the failing item, and
    nothing of the items after it. *)
Theorem first_error_ends_the_pass context pre x post t e :
  repositories_get (supabase context) = inl (Some (pre ++ x :: post)) ->
  outcome (for_of pre (updateReminders context) t) = Returned tt ->
  outcome (updateReminders context x
             (ticks (for_of pre (updateReminders context) t))) = Thrown e ->
  updateTasks context t =
    {| outcome := Thrown e;
       ticks := ticks (updateReminders context x
                         (ticks (for_of pre (updateReminders context) t)));
       events :=
         RepositoriesGet ::
         events (for_of pre (updateReminders context) t) ++
         events (updateReminders context x
                   (ticks (for_of pre (updateReminders context) t))) |}.
Proof.
  intros Hget Hpre Hx.
  unfold updateTasks, bind, call. rewrite Hget. cbn [outcome ticks events answer].
  destruct (pre ++ x :: post) as [|y l] eqn:Hl.
  { now destruct pre. }
  rewrite <- Hl, (for_of_stops _ _ _ _ _ _ Hpre Hx). reflexivity.
Qed.

(** Once the unassign threshold is zero or below and the deadline shifted
    by it is reached, a quiet evaluation ends on the log line of
    [unassignUserFromIssue]: the reminder branch is not looked at. *)
Lemma disabled_unassign_ends_evaluation context issue t r pages :
  parseGitHubUrl (url issue) = inl r ->
  paginate_listEvents (octokit context) r = inl pages ->
  List.filter (is_assignee_activity (payload context) issue) (concat pages) = [] ->
  unassignUserThreshold (config context) <= 0 ->
  deadline issue + DateTime.minutes (unassignUserThreshold (config context)) <= clock t ->
  updateReminders context issue t =
    {| outcome := Returned tt;
       ticks := S t;
       events := [ListEvents r; Logged info UnassignThresholdDisabled] |}.
Proof.
  intros Hp Hl Hq Hoff Hpast.
  apply Z.leb_le in Hoff. apply Z.leb_le in Hpast.
  rewrite (updateReminders_quiet _ _ _ _ _ Hp Hl Hq), Hpast.
  unfold unassignUserFromIssue. rewrite Hoff. reflexivity.
Qed.

(** ** Further properties of the evaluation *)

Ltac leb_facts :=
  repeat match goal with
         | H : (_ <=? _) = true |- _ => apply Z.leb_le in H
         | H : (_ <=? _) = false |- _ => apply Z.leb_gt in H
         end.

(** [split_runs] for an evaluation that is named in a hypothesis. *)
Ltac split_runs_any :=
  match goal with
  | |- context [updateReminders ?c ?i _] => split_runs_of c i
  | H : context [updateReminders ?c ?i _] |- _ => split_runs_of c i
  end.

(** Takes apart the membership of a call in an explicit run. *)
Ltac pick_call :=
  repeat match goal with
         | H : _ \/ _ |- _ => destruct H
         | H : False |- _ => destruct H
         end;
  try discriminate.

(** X1. One evaluation makes at most one write to GitHub (a comment or a
    removal of assignees) and at most one write to the store. *)
Theorem evaluation_writes_at_most_once context issue t :
  (length (github_writes (events (updateReminders context issue t))) <= 1)%nat /\
  (length (store_writes (events (updateReminders context issue t))) <= 1)%nat.
Proof.
  split_runs.
  all: decide_run; unfold github_writes; simpl; split; lia.
Qed.

(** X2. Where the unassignment instant [deadline + unassignUserThreshold]
    is an instant luxon can hold, a reminder comment is posted only for an
    item that was never reminded, under a reminder threshold above zero, at
    an instant that has reached the reminder instant and not yet the
    unassignment instant; so no reminder is posted there unless the
    reminder threshold is below the unassign threshold.  (Past that range
    the shifted deadline is an invalid [DateTime], whose comparisons are all
    false, and the plain sum below is not what the code compares.) *)
Theorem comment_only_when_due context issue t r body :
  representable
    (deadline issue + DateTime.minutes (unassignUserThreshold (config context))) ->
  In (CreateComment r body) (events (updateReminders context issue t)) ->
  last_reminder issue = None /\
  0 < sendRemindersThreshold (config context) /\
  deadline issue + DateTime.minutes (sendRemindersThreshold (config context)) <= clock t /\
  clock t < deadline issue + DateTime.minutes (unassignUserThreshold (config context)) /\
  sendRemindersThreshold (config context) < unassignUserThreshold (config context).
Proof.
  intros _ Hin. split_runs_any.
  all: decide_run; pick_call.
  all: leb_facts.
  all: destruct (last_reminder issue); try discriminate.
  all: unfold DateTime.minutes in *; repeat split; lia.
Qed.

(** X3. Assignees are removed only under an unassign threshold above zero,
    at an instant that has reached the unassignment instant, and when the
    activity filter kept none of the listed events: none of them is both by
    an assignee of the payload's issue and at or after the item's
    [last_check].  (Events by the item's own assignees do not count when
    the payload's issue is another one, or is missing.) *)
Theorem removal_only_past_threshold context issue t r logins :
  In (RemoveAssignees r logins) (events (updateReminders context issue t)) ->
  0 < unassignUserThreshold (config context) /\
  deadline issue + DateTime.minutes (unassignUserThreshold (config context)) <= clock t /\
  exists pages,
    paginate_listEvents (octokit context) r = inl pages /\
    List.filter (is_assignee_activity (payload context) issue) (concat pages) = [].
Proof.
  intros Hin. split_runs_any.
  all: decide_run; pick_call.
  all: leb_facts.
  all: match goal with
       | H : RemoveAssignees _ _ = RemoveAssignees _ _ |- _ => injection H as <- _
       end.
  all: repeat split; eauto; lia.
Qed.

Lemma logins_of_spec (l : list (option User)) (s : string) :
  In s (logins_of l) <-> s <> "" /\ exists a, In (Some a) l /\ login a = s.
Proof.
  induction l as [|o l IH]; simpl.
  - split; [intros [] | intros (_ & a & [] & _)].
  - destruct o as [a|]; simpl.
    + destruct (String.eqb (login a) "") eqn:Hempty.
      * apply String.eqb_eq in Hempty. rewrite IH. split.
        -- intros (Hs & b & Hb & Hlogin). split; [assumption|]. exists b. auto.
        -- intros (Hs & b & [Hb|Hb] & Hlogin); [|split; eauto].
           injection Hb as ->. congruence.
      * apply String.eqb_neq in Hempty. simpl. rewrite IH. split.
        -- intros [<-|(Hs & b & Hb & Hlogin)]; [split; eauto|].
           split; [assumption|]. exists b. auto.
        -- intros (Hs & b & [Hb|Hb] & Hlogin); [left; congruence|right; eauto].
    + rewrite IH. split.
      * intros (Hs & b & Hb & Hlogin). split; [assumption|]. exists b. auto.
      * intros (Hs & b & [Hb|Hb] & Hlogin); [discriminate|split; eauto].
Qed.

(** X4. A removal is asked for the issue of the evaluated item and names
    exactly the non-empty logins of the assignees the resolver returned:
    missing entries and empty logins are left out, nobody else is named. *)
Theorem removal_names_resolved_assignees context issue t r logins :
  In (RemoveAssignees r logins) (events (updateReminders context issue t)) ->
  parseGitHubUrl (url issue) = inl r /\
  forall s,
    In s logins <->
    s <> "" /\
    exists a,
      In (Some a) (assignees_of (resolved (issues_get (octokit context) r))) /\
      login a = s.
Proof.
  intros Hin. split_runs_any.
  all: decide_run; pick_call.
  all: match goal with
       | H : RemoveAssignees _ _ = RemoveAssignees _ _ |- _ => injection H as <- <-
       end.
  all: split; [reflexivity|].
  all: intro s; rewrite logins_of_spec.
  all: match goal with H : issues_get _ _ = _ |- _ => rewrite H end; reflexivity.
Qed.

(** X5. An upsert carries [lastReminder] only when a reminder comment was
    posted in the same evaluation and GitHub accepted it: a reminder is
    never recorded without having been sent. *)
Theorem lastReminder_only_after_comment context issue t u :
  In (RepositoriesUpsert u) (events (updateReminders context issue t)) ->
  upsert_lastReminder u <> None ->
  exists r body,
    In (CreateComment r body) (events (updateReminders context issue t)) /\
    issues_createComment (octokit context) r body = inl tt.
Proof.
  intros Hin Hsent. split_runs_any.
  all: decide_run; pick_call.
  all: repeat match goal with v : unit |- _ => destruct v end.
  all: try (match goal with
            | H : RepositoriesUpsert _ = RepositoriesUpsert _ |- _ => injection H as <-
            end; simpl in Hsent; congruence).
  all: eexists _, _; split; [do 3 right; left; reflexivity | eassumption].
Qed.

(** X6. Every write of an evaluation is about the evaluated item: an
    upsert has its URL and a [lastCheck] read from the clock during the
    evaluation, a delete has its URL, and a comment goes to the issue the
    URL parses to. *)
Theorem writes_concern_the_item context issue t :
  (forall u,
     In (RepositoriesUpsert u) (events (updateReminders context issue t)) ->
     upsert_url u = url issue /\
     (upsert_lastCheck u = clock t \/ upsert_lastCheck u = clock (S t))) /\
  (forall k,
     In (RepositoriesDelete k) (events (updateReminders context issue t)) ->
     k = url issue) /\
  (forall r body,
     In (CreateComment r body) (events (updateReminders context issue t)) ->
     parseGitHubUrl (url issue) = inl r).
Proof.
  split_runs.
  all: decide_run.
  all: (split; [intros upd Hin | split; [intros key Hin | intros ref' text Hin]]).
  all: pick_call.
  all: try match goal with
           | H : RepositoriesUpsert _ = RepositoriesUpsert _ |- _ =>
               injection H as <-; simpl; auto
           | H : RepositoriesDelete _ = RepositoriesDelete _ |- _ =>
               injection H as <-; reflexivity
           end.
  all: congruence.
Qed.

(** X7. A write that GitHub refuses is not caught: when the comment or
    the removal is refused, the evaluation throws that error and has
    written nothing to the store, so the item is evaluated afresh by the
    next pass. *)
Theorem refused_write_throws_before_store context issue t r e :
  (forall body,
     In (CreateComment r body) (events (updateReminders context issue t)) ->
     issues_createComment (octokit context) r body = inr e ->
     outcome (updateReminders context issue t) = Thrown e /\
     store_writes (events (updateReminders context issue t)) = []) /\
  (forall logins,
     In (RemoveAssignees r logins) (events (updateReminders context issue t)) ->
     issues_removeAssignees (octokit context) r logins = inr e ->
     outcome (updateReminders context issue t) = Thrown e /\
     store_writes (events (updateReminders context issue t)) = []).
Proof.
  split_runs.
  all: decide_run.
  all: split; intros x Hin Hrefused; pick_call.
  all: match goal with
       | H : CreateComment _ _ = CreateComment _ _ |- _ => injection H as Hr Hx
       | H : RemoveAssignees _ _ = RemoveAssignees _ _ |- _ => injection H as Hr Hx
       end.
  all: rewrite <- Hr, <- Hx in Hrefused; simpl in *.
  all: split; [congruence | reflexivity || congruence].
Qed.

(** X8. On listings whose events all carry an actor (the events of
    [IssueEvent]; on an event without actor the filter itself throws, see
    [listed_activity]), an evaluation throws only the error of a URL that
    does not parse, of a listing of events that failed, or of a write
    (comment, removal, upsert, delete) that was issued and refused; a
    failing read of the issue never makes it throw. *)
Theorem thrown_error_has_a_source context issue t e :
  outcome (updateReminders context issue t) = Thrown e ->
  parseGitHubUrl (url issue) = inr e \/
  (exists r, parseGitHubUrl (url issue) = inl r /\
             paginate_listEvents (octokit context) r = inr e) \/
  (exists r body,
     In (CreateComment r body) (events (updateReminders context issue t)) /\
     issues_createComment (octokit context) r body = inr e) \/
  (exists r logins,
     In (RemoveAssignees r logins) (events (updateReminders context issue t)) /\
     issues_removeAssignees (octokit context) r logins = inr e) \/
  (exists u,
     In (RepositoriesUpsert u) (events (updateReminders context issue t)) /\
     repositories_upsert (supabase context) u = inr e) \/
  (exists k,
     In (RepositoriesDelete k) (events (updateReminders context issue t)) /\
     repositories_delete (supabase context) k = inr e).
Proof.
  intros Hthrown. split_runs_any.
  all: decide_run; try discriminate.
  all: injection Hthrown as Heq; subst.
  all: first
    [ left; reflexivity
    | right; left; eexists; split; [reflexivity | eassumption]
    | do 2 right; left; eexists _, _; split; [simpl; auto 10 | eassumption]
    | do 3 right; left; eexists _, _; split; [simpl; auto 10 | eassumption]
    | do 4 right; left; eexists; split; [simpl; auto 10 | eassumption]
    | do 5 right; eexists; split; [simpl; auto 10 | eassumption] ].
Qed.

Lemma no_assignee_no_activity (p : Payload) (issue : Row) (l : list IssueEvent) :
  assignees_of (payload_issue p) = [] ->
  List.filter (is_assignee_activity p issue) l = [].
Proof.
  intros Hnone. induction l as [|o l IH]; [reflexivity|]. simpl.
  destruct (is_assignee_activity p issue o) eqn:Hact; [|exact IH].
  apply is_assignee_activity_spec in Hact as [(a & Hin & _) _].
  rewrite Hnone in Hin. destruct Hin.
Qed.

(** X9. When the payload of the run has no issue, or an issue without
    assignees (a push, for instance), the activity signal of every item is
    empty whatever events were fetched, and no evaluation moves a
    deadline: the only upserts left are those of a reminder. *)
Theorem payload_without_assignees_never_extends context issue t :
  assignees_of (payload_issue (payload context)) = [] ->
  (forall activity,
     outcome (getAssigneesActivityForIssue context issue t) = Returned activity ->
     activity = []) /\
  (forall u,
     In (RepositoriesUpsert u) (events (updateReminders context issue t)) ->
     upsert_deadline u = deadline issue /\ upsert_lastReminder u <> None).
Proof.
  intros Hnone. split.
  - intros activity.
    destruct (parseGitHubUrl (url issue)) as [r|e] eqn:Hp.
    + destruct (paginate_listEvents (octokit context) r) as [pages|e] eqn:Hl.
      * rewrite (getAssigneesActivityForIssue_ok _ _ _ _ _ Hp Hl); simpl.
        rewrite (no_assignee_no_activity _ _ _ Hnone). congruence.
      * rewrite (getAssigneesActivityForIssue_no_listing _ _ _ _ _ Hp Hl). discriminate.
    + rewrite (getAssigneesActivityForIssue_bad_url _ _ _ _ Hp). discriminate.
  - split_runs.
    all: try match goal with
             | H : List.filter _ _ = _ :: _ |- _ =>
                 rewrite (no_assignee_no_activity _ _ _ Hnone) in H; discriminate
             end.
    all: decide_run; intros upd Hin; pick_call.
    all: match goal with
         | H : RepositoriesUpsert _ = RepositoriesUpsert _ |- _ => injection H as <-
         end; simpl; split; [reflexivity | discriminate].
Qed.

(** X10. An upsert without [lastReminder] (the move of a deadline) keeps
    the time between [lastCheck] and the deadline, and it moves the
    deadline forward exactly when the clock reading is past the row's
    [last_check]. *)
Theorem deadline_move_keeps_remaining_time context issue t u :
  In (RepositoriesUpsert u) (events (updateReminders context issue t)) ->
  upsert_lastReminder u = None ->
  upsert_deadline u - upsert_lastCheck u = deadline issue - last_check issue /\
  (deadline issue < upsert_deadline u <-> last_check issue < upsert_lastCheck u).
Proof.
  intros Hin Hmove. split_runs_any.
  all: decide_run; pick_call.
  all: match goal with
       | H : RepositoriesUpsert _ = RepositoriesUpsert _ |- _ => injection H as <-
       end; simpl in *; try discriminate.
  all: unfold DateTime.plus, DateTime.diff; lia.
Qed.

(** X11. Before both the reminder instant and the unassignment instant,
    an evaluation reads no issue, writes nothing to GitHub and deletes
    nothing; the only write it can make is the move of a deadline. *)
Theorem early_item_is_left_alone context issue t :
  clock t < deadline issue + DateTime.minutes (unassignUserThreshold (config context)) ->
  clock t < deadline issue + DateTime.minutes (sendRemindersThreshold (config context)) ->
  github_writes (events (updateReminders context issue t)) = [] /\
  (forall r, ~ In (IssuesGet r) (events (updateReminders context issue t))) /\
  (forall k, ~ In (RepositoriesDelete k) (events (updateReminders context issue t))) /\
  (forall u,
     In (RepositoriesUpsert u) (events (updateReminders context issue t)) ->
     upsert_lastReminder u = None).
Proof.
  intros Hun Hrem. split_runs.
  all: decide_run; leb_facts; try lia.
  all: unfold github_writes; simpl.
  all: repeat split; try (intros x Hin; pick_call).
  all: match goal with
       | H : RepositoriesUpsert _ = RepositoriesUpsert _ |- _ => injection H as <-
       end; reflexivity.
Qed.

(** ** Properties of the driver *)

Lemma returned_evaluation_listed_events context issue t :
  outcome (updateReminders context issue t) = Returned tt ->
  exists r,
    parseGitHubUrl (url issue) = inl r /\
    In (ListEvents r) (events (updateReminders context issue t)).
Proof.
  intros Hret. split_runs_any.
  all: try discriminate.
  all: eexists; split; [reflexivity|].
  all: decide_run; simpl; auto.
Qed.

(** A loop that returned ran its body on every element, and the calls of
    each run are among the calls of the loop. *)
Lemma for_of_returned {A} (f : A -> M unit) (l : list A) t :
  outcome (for_of l f t) = Returned tt ->
  forall x, In x l ->
    exists t', outcome (f x t') = Returned tt /\
               forall e, In e (events (f x t')) -> In e (events (for_of l f t)).
Proof.
  revert t. induction l as [|y l IH]; intros t Hret x Hin; [destruct Hin|].
  simpl in *. unfold bind in *.
  destruct (outcome (f y t)) as [[]|] eqn:Hy; [|discriminate]. simpl in *.
  destruct Hin as [<-|Hin].
  - exists t. split; [assumption|]. intros e He. apply in_or_app. now left.
  - destruct (IH _ Hret x Hin) as (t' & Hx & Hev).
    exists t'. split; [assumption|]. intros e He. apply in_or_app. right. auto.
Qed.

(** X12. [updateTasks] answers [false] exactly when the store holds no
    watched item (a missing or an empty list); it has then asked the store
    once, logged, read no clock and evaluated nothing. *)
Theorem nothing_watched_iff_false context t :
  (outcome (updateTasks context t) = Returned false <->
   repositories_get (supabase context) = inl None \/
   repositories_get (supabase context) = inl (Some [])) /\
  (outcome (updateTasks context t) = Returned false ->
   events (updateTasks context t) = [RepositoriesGet; Logged info NoWatchedRepos] /\
   ticks (updateTasks context t) = t).
Proof.
  unfold updateTasks, bind, call, logger, emit, ret.
  destruct (repositories_get (supabase context)) as [[[|x l]|]|e];
    cbn [outcome ticks events answer app].
  - split; [split; auto | auto].
  - destruct (outcome (for_of (x :: l) (updateReminders context) t)) as [[]|];
      cbn [outcome ticks events answer app];
      (split; [split; [discriminate | intros [H|H]; discriminate] | discriminate]).
  - split; [split; auto | auto].
  - split; [split; [discriminate | intros [H|H]; discriminate] | discriminate].
Qed.

(** X13. When [updateTasks] answers [true], the store held at least one
    item and every item of the list was evaluated in that pass: its URL
    parses and its events were listed. *)
Theorem returned_pass_evaluated_every_item context t :
  outcome (updateTasks context t) = Returned true ->
  exists l,
    repositories_get (supabase context) = inl (Some l) /\
    l <> [] /\
    forall x, In x l ->
      exists r,
        parseGitHubUrl (url x) = inl r /\
        In (ListEvents r) (events (updateTasks context t)).
Proof.
  unfold updateTasks, bind, call, logger, emit, ret.
  destruct (repositories_get (supabase context)) as [[[|y l]|]|e];
    cbn [outcome ticks events answer app]; try discriminate.
  destruct (outcome (for_of (y :: l) (updateReminders context) t)) as [[]|] eqn:Hloop;
    cbn [outcome ticks events answer app]; [|discriminate].
  intros _. exists (y :: l). split; [reflexivity|]. split; [discriminate|].
  intros x Hin.
  destruct (for_of_returned _ _ _ Hloop x Hin) as (t' & Hx & Hev).
  destruct (returned_evaluation_listed_events _ _ _ Hx) as (r & Hp & Hlisted).
  exists r. split; [assumption|]. right. rewrite app_nil_r. auto.
Qed.

(** X16. A reminder comment is posted only when the read of the issue
    succeeded and returned at least one assignee entry, and its text
    mentions the non-empty logins of those entries, joined by [", @"]: the
    assignees addressed are the ones read during the evaluation, not the
    ones of the payload. *)
Theorem comment_mentions_resolved_assignees context issue t r body :
  In (CreateComment r body) (events (updateReminders context issue t)) ->
  exists data,
    issues_get (octokit context) r = inl data /\
    no_assignees (Some data) = false /\
    body = reminder_body (join ", @" (logins_of (assignees_of (Some data)))).
Proof.
  intros Hin. split_runs_any.
  all: decide_run; pick_call.
  all: match goal with
       | H : CreateComment _ _ = CreateComment _ _ |- _ => injection H as <- <-
       end.
  all: eexists; split; [eassumption|]; split; [assumption|reflexivity].
Qed.

(** ** The filter on listed events *)






Lemma find_listed_without_actor (o : ListedEvent) (l : list (option User)) :
  listed_actor o = None ->
  l <> [] ->
  find_listed o l = inr null_login.
Proof.
  intros Hnull Hl. destruct l as [|assignee l]; [contradiction|].
  cbn [find_listed]. now rewrite Hnull.
Qed.

Lemma find_listed_error (o : ListedEvent) (l : list (option User)) e :
  find_listed o l = inr e -> e = null_login /\ listed_actor o = None.
Proof.
  induction l as [|assignee l IH]; cbn [find_listed]; [discriminate|].
  destruct (listed_actor o) as [a|]; [|intros H; injection H as <-; auto].
  destruct (match assignee with Some a0 => _ | None => _ end); [discriminate | exact IH].
Qed.

Lemma keep_listed_error (p : Payload) (issue : Row) (o : ListedEvent) e :
  keep_listed p issue o = inr e -> e = null_login /\ listed_actor o = None.
Proof.
  unfold keep_listed. destruct (payload_issue p) as [[[l|]]|]; try discriminate.
  destruct (find_listed o l) as [found|e'] eqn:Hfind; [discriminate|].
  intros H. injection H as <-. now apply find_listed_error in Hfind.
Qed.

Lemma keep_listed_without_actor (p : Payload) (issue : Row) (o : ListedEvent) :
  assignees_of (payload_issue p) <> [] ->
  listed_actor o = None ->
  keep_listed p issue o = inr null_login.
Proof.
  unfold keep_listed, assignees_of.
  destruct (payload_issue p) as [[[l|]]|]; try contradiction.
  intros Hl Hnull. now rewrite (find_listed_without_actor _ _ Hnull Hl).
Qed.

Lemma filter_listed_error (p : Payload) (issue : Row) (data : list ListedEvent) :
  assignees_of (payload_issue p) <> [] ->
  (exists e, filter_listed (keep_listed p issue) data = inr e) <->
  exists o, In o data /\ listed_actor o = None.
Proof.
  intros Hsome. induction data as [|o data IH]; cbn [filter_listed].
  - split; [intros [e He]; discriminate | intros (o & [] & _)].
  - destruct (keep_listed p issue o) as [k|e] eqn:Hkeep.
    + destruct (filter_listed (keep_listed p issue) data) as [kept|e] eqn:Hrest.
      * split; [intros [e He]; discriminate|].
        intros (o' & [<-|Hin] & Hnull).
        -- rewrite (keep_listed_without_actor _ _ _ Hsome Hnull) in Hkeep. discriminate.
        -- destruct (proj2 IH) as [e He]; [eauto | discriminate].
      * split; [|eauto]. intros _.
        destruct (proj1 IH) as (o' & Hin & Hnull); [eauto|].
        exists o'. split; [now right | assumption].
    + split; [|eauto]. intros _. apply keep_listed_error in Hkeep as [_ Hnull].
      exists o. split; [now left | assumption].
Qed.

Lemma filter_listed_throws_null_login (p : Payload) (issue : Row)
    (data : list ListedEvent) e :
  filter_listed (keep_listed p issue) data = inr e -> e = null_login.
Proof.
  induction data as [|o data IH]; cbn [filter_listed]; [discriminate|].
  destruct (keep_listed p issue o) as [k|e'] eqn:Hkeep.
  - destruct (filter_listed (keep_listed p issue) data) as [kept|e'']; [discriminate|].
    intros H. injection H as <-. now apply IH.
  - intros H. injection H as <-. now apply keep_listed_error in Hkeep.
Qed.

(** X17. The filter of the source throws on an event without actor: when
    the payload's issue has an assignee entry, the listing is turned into
    an activity signal exactly when every listed event carries an actor,
    and otherwise the [TypeError] of [o.actor.login] is thrown; when the
    payload has no issue or no assignee entry the callback of [find] is
    never called and the signal is empty whatever was listed. *)
Theorem listing_without_actor_throws (p : Payload) (issue : Row)
    (pages : list (list ListedEvent)) :
  (assignees_of (payload_issue p) <> [] ->
   (listed_activity p issue pages = inr null_login <->
    exists o, In o (concat pages) /\ listed_actor o = None) /\
   (forall e, listed_activity p issue pages = inr e -> e = null_login)) /\
  (assignees_of (payload_issue p) = [] -> listed_activity p issue pages = inl []).
Proof.
  split.
  - intros Hsome. induction pages as [|data pages [IH IHe]]; cbn [listed_activity concat].
    + split; [|discriminate]. split; [discriminate | intros (o & [] & _)].
    + destruct (filter_listed (keep_listed p issue) data) as [kept|e] eqn:Hdata.
      * assert (Hclean : forall o, In o data -> listed_actor o <> None).
        { intros o Hin Hnull.
          destruct (proj2 (filter_listed_error p issue data Hsome)) as [e He]; [eauto|].
          congruence. }
        destruct (listed_activity p issue pages) as [rest|e] eqn:Hrest.
        -- split; [|discriminate]. split; [discriminate|].
           intros (o & Hin & Hnull). apply in_app_or in Hin as [Hin|Hin].
           ++ now apply Hclean in Hin.
           ++ assert (H : @inl (list ListedEvent) Error rest = inr null_login)
                by (apply IH; eauto).
              discriminate.
        -- rewrite (IHe e eq_refl) in *. split; [|congruence].
           split; [|reflexivity]. intros _.
           destruct (proj1 IH eq_refl) as (o & Hin & Hnull).
           exists o. split; [apply in_or_app; now right | assumption].
      * apply filter_listed_throws_null_login in Hdata as Heq. subst e.
        split; [|congruence]. split; [|reflexivity]. intros _.
        destruct (proj1 (filter_listed_error p issue data Hsome)) as (o & Hin & Hnull);
          [eauto|].
        exists o. split; [apply in_or_app; now left | assumption].
  - intros Hnone.
    assert (Hkeep : forall o, keep_listed p issue o = inl false).
    { intros o. unfold keep_listed, assignees_of in *.
      destruct (payload_issue p) as [[[l|]]|]; try reflexivity. now subst l. }
    assert (Hdata : forall data, filter_listed (keep_listed p issue) data = inl []).
    { induction data as [|o data IHd]; [reflexivity|].
      cbn [filter_listed]. now rewrite Hkeep, IHd. }
    induction pages as [|data pages IH]; [reflexivity|].
    cbn [listed_activity]. now rewrite Hdata, IH.
Qed.

(** C8. The delete of the record is issued exactly when the unassignment
    succeeded: the read of the item's issue returned at least one assignee
    entry, the removal of exactly the non-empty logins of those entries was
    asked on that issue, and GitHub accepted it.  The only record an
    evaluation deletes is the item's.  And when an executor ran (the
    resolver was called) and found no assignee, the warning is logged and
    the evaluation writes nothing to the store, neither upsert nor
    delete. *)
Theorem deleted_iff_unassigned context issue t :
  (In (RepositoriesDelete (url issue)) (events (updateReminders context issue t)) <->
   exists r data logins,
     parseGitHubUrl (url issue) = inl r /\
     issues_get (octokit context) r = inl data /\
     no_assignees (Some data) = false /\
     (forall s,
        In s logins <->
        s <> "" /\ exists a, In (Some a) (assignees_of (Some data)) /\ login a = s) /\
     In (RemoveAssignees r logins) (events (updateReminders context issue t)) /\
     issues_removeAssignees (octokit context) r logins = inl tt) /\
  (forall k,
     In (RepositoriesDelete k) (events (updateReminders context issue t)) ->
     k = url issue) /\
  (forall r,
     In (IssuesGet r) (events (updateReminders context issue t)) ->
     no_assignees (resolved (issues_get (octokit context) r)) = true ->
     In (Logged warn (MissingAssignees (url issue)))
        (events (updateReminders context issue t)) /\
     store_writes (events (updateReminders context issue t)) = []).
Proof.
  split_runs.
  all: decide_run.
  all: repeat match goal with u : unit |- _ => destruct u end.
  all: (split;
        [split;
         [intros Hdel
         |intros (r' & data' & names & Hp' & Hget' & Hsome' & Hnames & Hrem & Hok)]
        |split; [intros key Hdel | intros r' Hget Hnone]]).
  all: pick_call.
  all: repeat match goal with
       | H : IssuesGet _ = IssuesGet _ |- _ => injection H as <-
       | H : RemoveAssignees _ _ = RemoveAssignees _ _ |- _ => injection H as <- <-
       | H : RepositoriesDelete _ = RepositoriesDelete _ |- _ => injection H as <-
       end.
  all: try reflexivity.
  all: try (match goal with
            | Hg : issues_get _ _ = _,
              Hn : no_assignees (resolved (issues_get _ _)) = true |- _ =>
                rewrite Hg in Hn
            end; congruence).
  all: try (simpl in *; congruence).
  all: try (split; [simpl; auto 10 | reflexivity]).
  all: try (simpl; auto 10; fail).
  all: do 3 eexists; split; [reflexivity|]; split; [eassumption|];
    split; [assumption|]; split; [intro s; apply logins_of_spec|];
    split; [simpl; auto 10 | assumption].
Qed.

End UpdateTasks.

(** ** Properties of the event whitelist *)

Lemma includes_In (l : list string) (x : string) :
  PluginInputs.includes l x = true <-> In x l.
Proof.
  unfold PluginInputs.includes. rewrite existsb_exists. split.
  - intros (y & Hin & Heq). apply String.eqb_eq in Heq. now subst.
  - intros Hin. exists x. split; [assumption | apply String.eqb_refl].
Qed.

Lemma decode_from_ok (acc : list (option string)) (value : list string) l :
  PluginInputs.decode_from acc value = inl l <->
  (forall event, In event value -> In event PluginInputs.eventWhitelist) /\
  l = acc ++ List.map PluginInputs.mapWebhookToEvent value.
Proof.
  revert acc. induction value as [|event value IH]; intros acc;
    cbn [PluginInputs.decode_from List.map].
  - rewrite app_nil_r. split.
    + intros H. injection H as <-. split; [intros ? []|reflexivity].
    + intros [_ ->]. reflexivity.
  - destruct (PluginInputs.includes PluginInputs.eventWhitelist event) eqn:Hvalid;
      cbn [negb].
    + apply includes_In in Hvalid. rewrite IH, <- app_assoc. cbn [app]. split.
      * intros [Hall ->]. split; [|reflexivity]. intros e [<-|He]; auto.
      * intros [Hall ->]. split; [|reflexivity]. intros e He. apply Hall. now right.
    + split; [discriminate|]. intros [Hall _].
      assert (Hin : In event PluginInputs.eventWhitelist) by (apply Hall; now left).
      apply includes_In in Hin. congruence.
Qed.

(** X14. The decoding of the event whitelist succeeds exactly on lists
    made of whitelisted webhook names; on any other list it throws, and
    the error names the first name that is not whitelisted. *)
Theorem decode_accepts_whitelisted_only (value : list string) :
  ((exists l, PluginInputs.eventWhitelist_Decode value = inl l) <->
   forall event, In event value -> In event PluginInputs.eventWhitelist) /\
  (forall pre bad post,
     value = pre ++ bad :: post ->
     (forall event, In event pre -> In event PluginInputs.eventWhitelist) ->
     ~ In bad PluginInputs.eventWhitelist ->
     PluginInputs.eventWhitelist_Decode value = inr (PluginInputs.invalid_event bad)).
Proof.
  unfold PluginInputs.eventWhitelist_Decode. split.
  - split.
    + intros [l Hl]. now apply decode_from_ok in Hl.
    + intros Hall. eexists. apply decode_from_ok. split; [assumption|reflexivity].
  - intros pre bad post -> Hpre Hbad. generalize (@nil (option string)) as acc.
    induction pre as [|event pre IH]; intros acc;
      cbn [app PluginInputs.decode_from].
    + destruct (PluginInputs.includes PluginInputs.eventWhitelist bad) eqn:Hvalid;
        [|reflexivity].
      apply includes_In in Hvalid. contradiction.
    + destruct (PluginInputs.includes PluginInputs.eventWhitelist event) eqn:Hvalid;
        cbn [negb].
      * apply IH. intros e He. apply Hpre. now right.
      * assert (Hin : In event PluginInputs.eventWhitelist) by (apply Hpre; now left).
        apply includes_In in Hin. congruence.
Qed.

Lemma whitelisted_event_maps (event : string) :
  In event PluginInputs.eventWhitelist ->
  exists s,
    PluginInputs.mapWebhookToEvent event = Some s /\
    In s ["review_requested"; "ready_for_review"; "commented"; "committed"] /\
    PluginInputs.eventWhitelist_Encode [s] = [Some (PluginInputs.reencoded event)].
Proof.
  intros [<-|[<-|[<-|[<-|[<-|[]]]]]]; eexists; (split; [vm_compute; reflexivity|]);
    (split; [simpl; tauto | vm_compute; reflexivity]).
Qed.

Lemma reencoded_whitelisted (event : string) :
  In event PluginInputs.eventWhitelist ->
  In (PluginInputs.reencoded event) PluginInputs.eventWhitelist /\
  PluginInputs.mapWebhookToEvent (PluginInputs.reencoded event) =
    PluginInputs.mapWebhookToEvent event.
Proof.
  intros [<-|[<-|[<-|[<-|[<-|[]]]]]]; split;
    solve [vm_compute; tauto | vm_compute; reflexivity].
Qed.

Lemma decoded_events (value : list string) :
  (forall event, In event value -> In event PluginInputs.eventWhitelist) ->
  exists events,
    List.map PluginInputs.mapWebhookToEvent value = List.map Some events /\
    length events = length value /\
    (forall s, In s events ->
               In s ["review_requested"; "ready_for_review"; "commented"; "committed"]) /\
    PluginInputs.eventWhitelist_Encode events =
      List.map (fun webhook => Some (PluginInputs.reencoded webhook)) value.
Proof.
  induction value as [|event value IH]; intros Hall.
  - exists []. repeat split. intros s [].
  - destruct IH as (events & Hmap & Hlen & Hkind & Henc).
    { intros e He. apply Hall. now right. }
    destruct (whitelisted_event_maps event) as (s & Hs & Hin & Hone).
    { apply Hall. now left. }
    exists (s :: events). cbn [List.map length]. rewrite Hs, Hmap, Hlen.
    repeat split.
    + intros s' [<-|Hs']; auto.
    + unfold PluginInputs.eventWhitelist_Encode in *. cbn [List.map] in *.
      injection Hone as ->. now rewrite Henc.
Qed.

(** X15. A list that decodes is decoded name by name, in order, into
    timeline events that are all defined; encoding the result gives back
    every name except ["pull_request_review_comment.created"], which comes
    back as ["issue_comment.created"]; and the encoded list decodes to the
    same timeline events again. *)
Theorem encode_after_decode (value : list string) (l : list (option string)) :
  PluginInputs.eventWhitelist_Decode value = inl l ->
  exists events,
    l = List.map Some events /\
    length events = length value /\
    (forall s, In s events ->
               In s ["review_requested"; "ready_for_review"; "commented"; "committed"]) /\
    PluginInputs.eventWhitelist_Encode events =
      List.map (fun webhook => Some (PluginInputs.reencoded webhook)) value /\
    PluginInputs.eventWhitelist_Decode (List.map PluginInputs.reencoded value) = inl l.
Proof.
  unfold PluginInputs.eventWhitelist_Decode. intros Hl.
  apply decode_from_ok in Hl as [Hall ->]. cbn [app].
  destruct (decoded_events value Hall) as (events & Hmap & Hlen & Hkind & Henc).
  exists events. repeat split; try assumption.
  apply decode_from_ok. split.
  - intros e He. apply in_map_iff in He as (w & <- & Hw).
    now apply reencoded_whitelisted, Hall.
  - cbn [app]. rewrite map_map. apply map_ext_in.
    intros w Hw. symmetry. now apply reencoded_whitelisted, Hall.
Qed.

(** ** The claims on concrete items *)

(** C2 on an item whose assignee commented ten minutes after the deadline,
    evaluated fifteen minutes after it: the deadline moves by fifteen
    minutes although the reminder is not yet due. *)
Lemma activity_moves_deadline_first_witness :
  exists u,
    upsert_url u = Sample.url1 /\
    upsert_deadline u = 0 + (15 * Sample.minute - 0) /\
    upsert_lastCheck u = 15 * Sample.minute /\
    events (updateReminders Sample.parseGitHubUrl (Sample.clock_at (15 * Sample.minute))
                            Sample.engaged Sample.row1 0%nat) =
      [ListEvents Sample.ref1;
       Logged info (ActivityFound Sample.url1 0 (upsert_deadline u));
       RepositoriesUpsert u] /\
    outcome (updateReminders Sample.parseGitHubUrl (Sample.clock_at (15 * Sample.minute))
                             Sample.engaged Sample.row1 0%nat) =
      answer (repositories_upsert (supabase Sample.engaged) u).
Proof.
  apply (activity_moves_deadline_first Sample.parseGitHubUrl
           (Sample.clock_at (15 * Sample.minute)) Sample.engaged Sample.row1 0%nat
           Sample.ref1
           [[Sample.event Sample.bob (5 * Sample.minute)];
            [Sample.event Sample.alice (10 * Sample.minute)]]);
    [reflexivity | reflexivity | discriminate].
Defined.

(** C10 on the same item. *)
Lemma activity_upsert_leaves_lastReminder_out_witness :
  exists u,
    store_writes
      (events (updateReminders Sample.parseGitHubUrl (Sample.clock_at (15 * Sample.minute))
                               Sample.engaged Sample.row1 0%nat)) =
      [RepositoriesUpsert u] /\
    written_fields u = [f_url; f_deadline; f_lastCheck] /\
    ~ In f_lastReminder (written_fields u) /\
    upsert_lastReminder u = None.
Proof.
  apply (activity_upsert_leaves_lastReminder_out Sample.parseGitHubUrl
           (Sample.clock_at (15 * Sample.minute)) Sample.engaged Sample.row1 0%nat
           Sample.ref1
           [[Sample.event Sample.bob (5 * Sample.minute)];
            [Sample.event Sample.alice (10 * Sample.minute)]]);
    [reflexivity | reflexivity | discriminate].
Defined.

(** C7 on a quiet item ninety minutes past its deadline (reminder after
    sixty, unassignment after a hundred and twenty). *)
Lemma reminder_success_keeps_deadline_witness :
  store_writes
    (events (updateReminders Sample.parseGitHubUrl (Sample.clock_at (90 * Sample.minute))
                             Sample.watched Sample.row1 0%nat)) =
    [RepositoriesUpsert (Sample.reminded_at (90 * Sample.minute))].
Proof.
  apply (reminder_success_keeps_deadline Sample.parseGitHubUrl
           (Sample.clock_at (90 * Sample.minute)) Sample.watched Sample.row1 0%nat
           Sample.ref1 Sample.reminder_text).
  - vm_compute. do 3 right. left. reflexivity.
  - reflexivity.
Defined.

(** C4 on a quiet item a hundred and fifty minutes past its deadline:
    alice is unassigned, the record is deleted, nobody is reminded. *)
Lemma past_both_unassigns_not_reminds_witness :
  events (updateReminders Sample.parseGitHubUrl (Sample.clock_at (150 * Sample.minute))
                          Sample.watched Sample.row1 0%nat) =
    [ListEvents Sample.ref1;
     Logged info (PassedDeadline Sample.url1);
     IssuesGet Sample.ref1;
     RemoveAssignees Sample.ref1 ["alice"];
     RepositoriesDelete Sample.url1] /\
  comments
    (events (updateReminders Sample.parseGitHubUrl (Sample.clock_at (150 * Sample.minute))
                             Sample.watched Sample.row1 0%nat)) = [].
Proof.
  destruct (past_both_unassigns_not_reminds Sample.parseGitHubUrl
              (Sample.clock_at (150 * Sample.minute)) Sample.watched Sample.row1 0%nat
              Sample.ref1 [[]]) as (Hrun & _ & _ & Hquiet);
    [reflexivity | reflexivity | reflexivity | reflexivity
    | discriminate | discriminate | ].
  split; [exact Hrun | exact Hquiet].
Defined.

(** C4 as stated fails when the unassign threshold is zero: ninety minutes
    past the deadline the item is past both shifted deadlines (zero and
    sixty minutes), nobody acted, alice is assigned, and the evaluation
    only logs that it will not unassign. *)
Lemma past_both_with_unassign_disabled :
  outcome (getAssigneesActivityForIssue Sample.parseGitHubUrl Sample.lenient
                                        Sample.row1 1%nat) = Returned [] /\
  deadline Sample.row1
    + DateTime.minutes (unassignUserThreshold (config Sample.lenient)) <= 90 * Sample.minute /\
  deadline Sample.row1
    + DateTime.minutes (sendRemindersThreshold (config Sample.lenient)) <= 90 * Sample.minute /\
  issues_get (octokit Sample.lenient) Sample.ref1 =
    inl (Sample.assigned_to [Some Sample.alice]) /\
  updateReminders Sample.parseGitHubUrl (Sample.clock_at (90 * Sample.minute))
                  Sample.lenient Sample.row1 0%nat =
    {| outcome := Returned tt;
       ticks := 1;
       events := [ListEvents Sample.ref1; Logged info UnassignThresholdDisabled] |} /\
  removals
    (events (updateReminders Sample.parseGitHubUrl (Sample.clock_at (90 * Sample.minute))
                             Sample.lenient Sample.row1 0%nat)) = [].
Proof.
  repeat split; try reflexivity; discriminate.
Qed.

(** C5 on a quiet item ninety minutes past its deadline: one comment, one
    upsert carrying [lastReminder], and the item read back with it is not
    reminded again. *)
Lemma due_reminder_sent_once_witness :
  exists body u,
    comments
      (events (updateReminders Sample.parseGitHubUrl (Sample.clock_at (90 * Sample.minute))
                               Sample.watched Sample.row1 0%nat)) =
      [CreateComment Sample.ref1 body] /\
    store_writes
      (events (updateReminders Sample.parseGitHubUrl (Sample.clock_at (90 * Sample.minute))
                               Sample.watched Sample.row1 0%nat)) =
      [RepositoriesUpsert u] /\
    upsert_url u = Sample.url1 /\
    upsert_lastReminder u = Some (90 * Sample.minute) /\
    outcome (updateReminders Sample.parseGitHubUrl (Sample.clock_at (90 * Sample.minute))
                             Sample.watched Sample.row1 0%nat) =
      answer (repositories_upsert (supabase Sample.watched) u) /\
    forall issue' context' t',
      last_reminder issue' = upsert_lastReminder u ->
      comments
        (events (updateReminders Sample.parseGitHubUrl
                                 (Sample.clock_at (90 * Sample.minute))
                                 context' issue' t')) = [].
Proof.
  apply (due_reminder_sent_once Sample.parseGitHubUrl
           (Sample.clock_at (90 * Sample.minute)) Sample.watched Sample.row1 0%nat
           Sample.ref1 [[]] (Sample.assigned_to [Some Sample.alice]));
    try reflexivity; discriminate.
Defined.

(** C5 as stated fails when the issue has no assignee: the item is between
    its reminder instant and its disqualification instant, was never
    reminded, nobody acted, and no comment is posted and nothing is
    persisted. *)
Lemma due_reminder_without_assignees :
  0 < sendRemindersThreshold (config Sample.abandoned) /\
  deadline Sample.row1
    + DateTime.minutes (sendRemindersThreshold (config Sample.abandoned)) <= 90 * Sample.minute /\
  90 * Sample.minute <
    deadline Sample.row1
    + DateTime.minutes (unassignUserThreshold (config Sample.abandoned)) /\
  last_reminder Sample.row1 = None /\
  updateReminders Sample.parseGitHubUrl (Sample.clock_at (90 * Sample.minute))
                  Sample.abandoned Sample.row1 0%nat =
    {| outcome := Returned tt;
       ticks := 2;
       events := [ListEvents Sample.ref1;
                  Logged info (ShouldSendReminder Sample.url1 true);
                  IssuesGet Sample.ref1;
                  Logged warn (MissingAssignees Sample.url1)] |} /\
  comments
    (events (updateReminders Sample.parseGitHubUrl (Sample.clock_at (90 * Sample.minute))
                             Sample.abandoned Sample.row1 0%nat)) = [] /\
  store_writes
    (events (updateReminders Sample.parseGitHubUrl (Sample.clock_at (90 * Sample.minute))
                             Sample.abandoned Sample.row1 0%nat)) = [].
Proof.
  repeat split; try reflexivity; discriminate.
Qed.

(** C6 on an item whose issue cannot be read. *)
Lemma resolver_failure_is_swallowed_witness :
  outcome (updateReminders Sample.parseGitHubUrl (Sample.clock_at (150 * Sample.minute))
                           Sample.broken Sample.row1 0%nat) = Returned tt /\
  store_writes
    (events (updateReminders Sample.parseGitHubUrl (Sample.clock_at (150 * Sample.minute))
                             Sample.broken Sample.row1 0%nat)) = [].
Proof.
  destruct (resolver_failure_is_swallowed Sample.parseGitHubUrl
              (Sample.clock_at (150 * Sample.minute)) Sample.broken Sample.row1 0%nat
              Sample.ref1 (MkError "Not Found") [[]])
    as (_ & _ & Hout & Hstore); try reflexivity.
  split; [exact Hout | exact Hstore].
Defined.

(** C6 as stated fails: the resolver's call fails with "Not Found", during
    the reminder dispatch (ninety minutes past the deadline) and during
    the unassignment (a hundred and fifty), and both evaluations return
    normally after the warning of the no-assignee exit. *)
Lemma resolver_failure_does_not_propagate :
  issues_get (octokit Sample.broken) Sample.ref1 = inr (MkError "Not Found") /\
  updateReminders Sample.parseGitHubUrl (Sample.clock_at (90 * Sample.minute))
                  Sample.broken Sample.row1 0%nat =
    {| outcome := Returned tt;
       ticks := 2;
       events := [ListEvents Sample.ref1;
                  Logged info (ShouldSendReminder Sample.url1 true);
                  IssuesGet Sample.ref1;
                  Logged error (CouldNotGetIssue Sample.url1);
                  Logged warn (MissingAssignees Sample.url1)] |} /\
  updateReminders Sample.parseGitHubUrl (Sample.clock_at (150 * Sample.minute))
                  Sample.broken Sample.row1 0%nat =
    {| outcome := Returned tt;
       ticks := 1;
       events := [ListEvents Sample.ref1;
                  Logged info (PassedDeadline Sample.url1);
                  IssuesGet Sample.ref1;
                  Logged error (CouldNotGetIssue Sample.url1);
                  Logged warn (MissingAssignees Sample.url1)] |}.
Proof.
  repeat split; reflexivity.
Qed.

(** C3 on a pass over two items where the events of the first cannot be
    listed. *)
Lemma first_error_ends_the_pass_witness :
  updateTasks Sample.parseGitHubUrl (Sample.clock_at (30 * Sample.minute))
              Sample.batch 0%nat =
    {| outcome := Thrown (MkError "Bad Gateway");
       ticks := 1;
       events := [RepositoriesGet; ListEvents Sample.ref1] |}.
Proof.
  apply (first_error_ends_the_pass Sample.parseGitHubUrl
           (Sample.clock_at (30 * Sample.minute)) Sample.batch
           [] Sample.row1 [Sample.row2] 0%nat (MkError "Bad Gateway"));
    reflexivity.
Defined.

(** C3 as stated fails: the evaluation of the first item throws, the pass
    throws with it, and the second item, whose evaluation on its own lists
    its events and returns, is not evaluated in the pass. *)
Lemma failed_item_aborts_the_batch :
  outcome (updateReminders Sample.parseGitHubUrl (Sample.clock_at (30 * Sample.minute))
                           Sample.batch Sample.row1 0%nat) =
    Thrown (MkError "Bad Gateway") /\
  updateTasks Sample.parseGitHubUrl (Sample.clock_at (30 * Sample.minute))
              Sample.batch 0%nat =
    {| outcome := Thrown (MkError "Bad Gateway");
       ticks := 1;
       events := [RepositoriesGet; ListEvents Sample.ref1] |} /\
  ~ In (ListEvents Sample.ref2)
       (events (updateTasks Sample.parseGitHubUrl (Sample.clock_at (30 * Sample.minute))
                            Sample.batch 0%nat)) /\
  updateReminders Sample.parseGitHubUrl (Sample.clock_at (30 * Sample.minute))
                  Sample.batch Sample.row2 1%nat =
    {| outcome := Returned tt;
       ticks := 2;
       events := [ListEvents Sample.ref2;
                  Logged info (NothingToDo Sample.url2 (30 * Sample.minute)
                                           (60 * Sample.minute) (120 * Sample.minute))] |}.
Proof.
  repeat split; try reflexivity.
  vm_compute. intros [H|[H|[]]]; discriminate.
Qed.

(** C1: what the code does on the failing input.  The unassign threshold is
    zero, the reminder threshold is sixty minutes, the item was never
    reminded, nobody acted, alice is assigned, and the clock is a million
    minutes past the deadline.  The evaluation makes no removal, and no
    reminder either: it ends on the log line of the disabled unassignment.
    The same item under a configuration that unassigns only later is
    reminded. *)
Theorem disabled_unassign_swallows_due_reminder :
  unassignUserThreshold (config Sample.lenient) = 0 /\
  0 < sendRemindersThreshold (config Sample.lenient) /\
  deadline Sample.row1
    + DateTime.minutes (sendRemindersThreshold (config Sample.lenient))
    <= 1000000 * Sample.minute /\
  last_reminder Sample.row1 = None /\
  updateReminders Sample.parseGitHubUrl (Sample.clock_at (1000000 * Sample.minute))
                  Sample.lenient Sample.row1 0%nat =
    {| outcome := Returned tt;
       ticks := 1;
       events := [ListEvents Sample.ref1; Logged info UnassignThresholdDisabled] |} /\
  removals
    (events (updateReminders Sample.parseGitHubUrl
                             (Sample.clock_at (1000000 * Sample.minute))
                             Sample.lenient Sample.row1 0%nat)) = [] /\
  comments
    (events (updateReminders Sample.parseGitHubUrl
                             (Sample.clock_at (1000000 * Sample.minute))
                             Sample.lenient Sample.row1 0%nat)) = [] /\
  comments
    (events (updateReminders Sample.parseGitHubUrl
                             (Sample.clock_at (1000000 * Sample.minute))
                             (Sample.context_with Sample.quiet [Sample.row1] 2000000 60)
                             Sample.row1 0%nat)) =
    [CreateComment Sample.ref1 Sample.reminder_text].
Proof.
  repeat split; try reflexivity; discriminate.
Qed.

(** ** The further properties on concrete items *)

(** X2 on the quiet item ninety minutes past its deadline, which is sent a
    comment. *)
Lemma comment_only_when_due_witness :
  last_reminder Sample.row1 = None /\
  0 < sendRemindersThreshold (config Sample.watched) /\
  deadline Sample.row1 + DateTime.minutes (sendRemindersThreshold (config Sample.watched))
    <= 90 * Sample.minute /\
  90 * Sample.minute
    < deadline Sample.row1 + DateTime.minutes (unassignUserThreshold (config Sample.watched)) /\
  sendRemindersThreshold (config Sample.watched) < unassignUserThreshold (config Sample.watched).
Proof.
  apply (comment_only_when_due Sample.parseGitHubUrl
           (Sample.clock_at (90 * Sample.minute)) Sample.watched Sample.row1 0%nat
           Sample.ref1 Sample.reminder_text).
  - vm_compute. split; discriminate.
  - vm_compute. do 3 right. left. reflexivity.
Defined.

(** X3 on the quiet item a hundred and fifty minutes past its deadline. *)
Lemma removal_only_past_threshold_witness :
  0 < unassignUserThreshold (config Sample.watched) /\
  deadline Sample.row1 + DateTime.minutes (unassignUserThreshold (config Sample.watched))
    <= 150 * Sample.minute /\
  exists pages,
    paginate_listEvents (octokit Sample.watched) Sample.ref1 = inl pages /\
    List.filter (is_assignee_activity (payload Sample.watched) Sample.row1)
                (concat pages) = [].
Proof.
  apply (removal_only_past_threshold Sample.parseGitHubUrl
           (Sample.clock_at (150 * Sample.minute)) Sample.watched Sample.row1 0%nat
           Sample.ref1 ["alice"]).
  vm_compute. do 3 right. left. reflexivity.
Defined.

(** X4 on an issue whose assignee list holds alice, a missing entry, an
    empty login and bob: alice and bob are named. *)
Lemma removal_names_resolved_assignees_witness :
  Sample.parseGitHubUrl (url Sample.row1) = inl Sample.ref1 /\
  forall s,
    In s ["alice"; "bob"] <->
    s <> "" /\
    exists a,
      In (Some a)
         (assignees_of (resolved (issues_get (octokit Scenario.shared) Sample.ref1))) /\
      login a = s.
Proof.
  apply (removal_names_resolved_assignees Sample.parseGitHubUrl
           (Sample.clock_at (150 * Sample.minute)) Scenario.shared Sample.row1 0%nat
           Sample.ref1 ["alice"; "bob"]).
  vm_compute. do 3 right. left. reflexivity.
Defined.

(** X5 on the upsert that follows the comment sent at ninety minutes. *)
Lemma lastReminder_only_after_comment_witness :
  exists r body,
    In (CreateComment r body)
       (events (updateReminders Sample.parseGitHubUrl (Sample.clock_at (90 * Sample.minute))
                                Sample.watched Sample.row1 0%nat)) /\
    issues_createComment (octokit Sample.watched) r body = inl tt.
Proof.
  apply (lastReminder_only_after_comment Sample.parseGitHubUrl
           (Sample.clock_at (90 * Sample.minute)) Sample.watched Sample.row1 0%nat
           (Sample.reminded_at (90 * Sample.minute))).
  - vm_compute. do 4 right. left. reflexivity.
  - discriminate.
Defined.

(** X6 on the same evaluation: the upsert is about the item. *)
Lemma writes_concern_the_item_witness :
  upsert_url (Sample.reminded_at (90 * Sample.minute)) = url Sample.row1 /\
  (upsert_lastCheck (Sample.reminded_at (90 * Sample.minute)) = 90 * Sample.minute \/
   upsert_lastCheck (Sample.reminded_at (90 * Sample.minute)) = 90 * Sample.minute).
Proof.
  apply (proj1 (writes_concern_the_item Sample.parseGitHubUrl
                  (Sample.clock_at (90 * Sample.minute)) Sample.watched Sample.row1 0%nat)
               (Sample.reminded_at (90 * Sample.minute))).
  vm_compute. do 4 right. left. reflexivity.
Defined.

(** X7 on an item whose reminder GitHub refuses. *)
Lemma refused_write_throws_before_store_witness :
  outcome (updateReminders Sample.parseGitHubUrl (Sample.clock_at (90 * Sample.minute))
                           Scenario.refused Sample.row1 0%nat) =
    Thrown (MkError "Forbidden") /\
  store_writes
    (events (updateReminders Sample.parseGitHubUrl (Sample.clock_at (90 * Sample.minute))
                             Scenario.refused Sample.row1 0%nat)) = [].
Proof.
  apply (proj1 (refused_write_throws_before_store Sample.parseGitHubUrl
                  (Sample.clock_at (90 * Sample.minute)) Scenario.refused Sample.row1
                  0%nat Sample.ref1 (MkError "Forbidden"))
               Sample.reminder_text).
  - vm_compute. do 3 right. left. reflexivity.
  - reflexivity.
Defined.

(** X8 on an item whose removal GitHub refuses: the error thrown is the
    one of the removal. *)
Lemma thrown_error_has_a_source_witness :
  exists r logins,
    In (RemoveAssignees r logins)
       (events (updateReminders Sample.parseGitHubUrl (Sample.clock_at (150 * Sample.minute))
                                Scenario.refused Sample.row1 0%nat)) /\
    issues_removeAssignees (octokit Scenario.refused) r logins = inr (MkError "Forbidden").
Proof.
  destruct (thrown_error_has_a_source Sample.parseGitHubUrl
              (Sample.clock_at (150 * Sample.minute)) Scenario.refused Sample.row1 0%nat
              (MkError "Forbidden") eq_refl)
    as [H|[(r & _ & H)|[(r & body & H & _)|[H|[(u & H & _)|(k & H & _)]]]]].
  - vm_compute in H. discriminate H.
  - vm_compute in H. discriminate H.
  - exfalso. vm_compute in H. intuition discriminate.
  - exact H.
  - exfalso. vm_compute in H. intuition discriminate.
  - exfalso. vm_compute in H. intuition discriminate.
Defined.

(** X9 on a run triggered by a push while alice and bob act on the
    watched issue: ninety minutes past the deadline the item is reminded,
    its deadline is not moved. *)
Lemma payload_without_assignees_never_extends_witness :
  upsert_deadline (Sample.reminded_at (90 * Sample.minute)) = deadline Sample.row1 /\
  upsert_lastReminder (Sample.reminded_at (90 * Sample.minute)) <> None.
Proof.
  apply (proj2 (payload_without_assignees_never_extends Sample.parseGitHubUrl
                  (Sample.clock_at (90 * Sample.minute)) Scenario.pushed Sample.row1 0%nat
                  eq_refl)
               (Sample.reminded_at (90 * Sample.minute))).
  vm_compute. do 4 right. left. reflexivity.
Defined.

(** X10 on the item whose assignee acted, evaluated fifteen minutes after
    its last check. *)
Lemma deadline_move_keeps_remaining_time_witness :
  15 * Sample.minute - 15 * Sample.minute = deadline Sample.row1 - last_check Sample.row1 /\
  (deadline Sample.row1 < 15 * Sample.minute <-> last_check Sample.row1 < 15 * Sample.minute).
Proof.
  apply (deadline_move_keeps_remaining_time Sample.parseGitHubUrl
           (Sample.clock_at (15 * Sample.minute)) Sample.engaged Sample.row1 0%nat
           {| upsert_url := Sample.url1;
              upsert_deadline := 15 * Sample.minute;
              upsert_lastReminder := None;
              upsert_lastCheck := 15 * Sample.minute |}).
  - vm_compute. do 2 right. left. reflexivity.
  - reflexivity.
Defined.

(** X11 on the quiet item thirty minutes past its deadline. *)
Lemma early_item_is_left_alone_witness :
  github_writes
    (events (updateReminders Sample.parseGitHubUrl (Sample.clock_at (30 * Sample.minute))
                             Sample.watched Sample.row1 0%nat)) = [] /\
  (forall r,
     ~ In (IssuesGet r)
          (events (updateReminders Sample.parseGitHubUrl
                                   (Sample.clock_at (30 * Sample.minute))
                                   Sample.watched Sample.row1 0%nat))) /\
  (forall k,
     ~ In (RepositoriesDelete k)
          (events (updateReminders Sample.parseGitHubUrl
                                   (Sample.clock_at (30 * Sample.minute))
                                   Sample.watched Sample.row1 0%nat))) /\
  (forall u,
     In (RepositoriesUpsert u)
        (events (updateReminders Sample.parseGitHubUrl
                                 (Sample.clock_at (30 * Sample.minute))
                                 Sample.watched Sample.row1 0%nat)) ->
     upsert_lastReminder u = None).
Proof.
  apply (early_item_is_left_alone Sample.parseGitHubUrl
           (Sample.clock_at (30 * Sample.minute)) Sample.watched Sample.row1 0%nat);
    reflexivity.
Defined.

(** X12 on a store that watches nothing. *)
Lemma nothing_watched_iff_false_witness :
  events (updateTasks Sample.parseGitHubUrl (Sample.clock_at 0) Scenario.idle 0%nat) =
    [RepositoriesGet; Logged info NoWatchedRepos] /\
  ticks (updateTasks Sample.parseGitHubUrl (Sample.clock_at 0) Scenario.idle 0%nat) = 0%nat.
Proof.
  apply (proj2 (nothing_watched_iff_false Sample.parseGitHubUrl (Sample.clock_at 0)
                  Scenario.idle 0%nat)).
  reflexivity.
Defined.

(** X13 on a pass over two quiet items within due time. *)
Lemma returned_pass_evaluated_every_item_witness :
  exists l,
    repositories_get (supabase Scenario.calm) = inl (Some l) /\
    l <> [] /\
    forall x, In x l ->
      exists r,
        Sample.parseGitHubUrl (url x) = inl r /\
        In (ListEvents r)
           (events (updateTasks Sample.parseGitHubUrl (Sample.clock_at (30 * Sample.minute))
                                Scenario.calm 0%nat)).
Proof.
  apply (returned_pass_evaluated_every_item Sample.parseGitHubUrl
           (Sample.clock_at (30 * Sample.minute)) Scenario.calm 0%nat).
  reflexivity.
Defined.

(** X14 on a list whose second name is not whitelisted. *)
Lemma decode_accepts_whitelisted_only_witness :
  PluginInputs.eventWhitelist_Decode ["push"; "deployment"; "fork"] =
    inr (PluginInputs.invalid_event "deployment").
Proof.
  apply (proj2 (decode_accepts_whitelisted_only ["push"; "deployment"; "fork"])
               ["push"] "deployment" ["fork"]).
  - reflexivity.
  - intros event [<-|[]]. vm_compute. tauto.
  - vm_compute. intuition discriminate.
Defined.

(** X15 on a review comment and a push: the review comment comes back as
    an issue comment. *)
Lemma encode_after_decode_witness :
  exists events,
    [Some "commented"; Some "committed"] = List.map Some events /\
    length events = 2%nat /\
    (forall s, In s events ->
               In s ["review_requested"; "ready_for_review"; "commented"; "committed"]) /\
    PluginInputs.eventWhitelist_Encode events =
      [Some "issue_comment.created"; Some "push"] /\
    PluginInputs.eventWhitelist_Decode ["issue_comment.created"; "push"] =
      inl [Some "commented"; Some "committed"].
Proof.
  apply (encode_after_decode ["pull_request_review_comment.created"; "push"]
           [Some "commented"; Some "committed"]).
  reflexivity.
Defined.

(** X16 on the crowded issue ninety minutes past the deadline: alice and
    bob are mentioned. *)
Lemma comment_mentions_resolved_assignees_witness :
  exists data,
    issues_get (octokit Scenario.shared) Sample.ref1 = inl data /\
    no_assignees (Some data) = false /\
    "@alice, @bob, this task has been idle for a while. Please provide an update." =
      reminder_body (join ", @" (logins_of (assignees_of (Some data)))).
Proof.
  apply (comment_mentions_resolved_assignees Sample.parseGitHubUrl
           (Sample.clock_at (90 * Sample.minute)) Scenario.shared Sample.row1 0%nat
           Sample.ref1
           "@alice, @bob, this task has been idle for a while. Please provide an update.").
  vm_compute. do 3 right. left. reflexivity.
Defined.



(** C8 on the quiet item a hundred and fifty minutes past its deadline,
    whose record is deleted: alice, the assignee read from the issue, was
    removed from it and GitHub accepted the removal. *)
Lemma deleted_iff_unassigned_witness :
  exists r data logins,
    Sample.parseGitHubUrl (url Sample.row1) = inl r /\
    issues_get (octokit Sample.watched) r = inl data /\
    no_assignees (Some data) = false /\
    (forall s,
       In s logins <->
       s <> "" /\ exists a, In (Some a) (assignees_of (Some data)) /\ login a = s) /\
    In (RemoveAssignees r logins)
       (events (updateReminders Sample.parseGitHubUrl (Sample.clock_at (150 * Sample.minute))
                                Sample.watched Sample.row1 0%nat)) /\
    issues_removeAssignees (octokit Sample.watched) r logins = inl tt.
Proof.
  apply (proj1 (proj1 (deleted_iff_unassigned Sample.parseGitHubUrl
                         (Sample.clock_at (150 * Sample.minute)) Sample.watched
                         Sample.row1 0%nat))).
  vm_compute. do 4 right. left. reflexivity.
Defined.

(** X17 on a listing whose second page holds an event without actor, under
    a payload whose issue is assigned to alice. *)
Lemma listing_without_actor_throws_witness :
  listed_activity (payload Sample.engaged) Sample.row1
    [[with_actor (Sample.event Sample.alice (10 * Sample.minute))];
     [{| listed_actor := None; listed_created_at := 12 * Sample.minute |}]] =
    inr null_login.
Proof.
  apply (proj1 (listing_without_actor_throws (payload Sample.engaged) Sample.row1
                  [[with_actor (Sample.event Sample.alice (10 * Sample.minute))];
                   [{| listed_actor := None; listed_created_at := 12 * Sample.minute |}]])).
  - discriminate.
  - eexists. split; [right; left; reflexivity | reflexivity].
Defined.
